(** * Emotion-based mood lighting: a shallow embedding of
      [src/lighting_controller.py] and [src/emotion_detector.py].

    Numbers.  Python [int]s are unbounded, so colour channels are [Z].
    A Python [float] is a rational number, so floats (brightness,
    transition speed, clock readings, emotion scores) are values of [Q],
    and [int(x)] on a float truncates toward zero ([py_int]).  The
    arithmetic on floats comes twice.  Modules [Lighting] and [Detector]
    compute exactly; they carry the properties that do not depend on
    rounding (snapping, fixed points, bounds, the history, the log).
    Modules [RoundedLighting] and [RoundedDetector] round the result of
    every operation ([Float]); they carry the properties that speak of
    computed values (scaled channels, averages), for every rounding that
    obeys [Float.Rounding], of which rounding to the 53 bits of binary64
    ([Float.round53]) is one.  The concrete runs in exact arithmetic use
    elapsed times 0, 1/64, 1/4, 1/2 and 1, for which binary64 gives
    [0.1 * dt * 10 = dt] and every later product and sum is exact, so
    Python computes the same colours.

    The clock.  [time.time()] and [datetime.now()] are inputs of the
    methods that read them: [update] takes the clock reading as an
    argument. *)

From Stdlib Require Import ZArith QArith Qround Qabs Qpower Qreduction List String Ascii Bool Lia.
From Stdlib Require Import HexString.
From Stdlib Require Import Morphisms Setoid Lqa.
Import ListNotations.

Local Open Scope Z_scope.

(** ** Python numerics *)

Module PyNum.

(** [int(x)] for a float [x]: the integer part, rounding toward zero. *)
Definition py_int (x : Q) : Z :=
  if Qnum x <? 0 then Qceiling x else Qfloor x.

(** [int + float], [int * float]: the integer operand is converted. *)
Definition of_int (z : Z) : Q := inject_Z z.

(** [a < b] on floats, as a boolean. *)
Definition Qltb (a b : Q) : bool := negb (Qle_bool b a).

(** [min(a, b)] and [max(a, b)]: the first argument unless the second is
    strictly smaller (larger). *)
Definition py_min (a b : Q) : Q := if Qltb b a then b else a.
Definition py_max (a b : Q) : Q := if Qltb a b then b else a.

End PyNum.
Export PyNum.

(** ** Python dictionaries and slices *)

Module PyData.

(** A [dict] with string keys, in insertion order (the order of [items()],
    which [max] uses to break ties). *)
Definition dict (V : Type) : Type := list (string * V).

Fixpoint dict_get {V : Type} (d : dict V) (k : string) : option V :=
  match d with
  | [] => None
  | (k', v) :: d' => if String.eqb k' k then Some v else dict_get d' k
  end.

(** [d.get(k, default)] *)
Definition dict_get_or {V : Type} (d : dict V) (k : string) (default : V) : V :=
  match dict_get d k with
  | Some v => v
  | None => default
  end.

(** [d[k] = v]: an existing key keeps its position, a new key goes last. *)
Fixpoint dict_set {V : Type} (d : dict V) (k : string) (v : V) : dict V :=
  match d with
  | [] => [(k, v)]
  | (k', v') :: d' =>
      if String.eqb k' k then (k', v) :: d' else (k', v') :: dict_set d' k v
  end.

Definition keys {V : Type} (d : dict V) : list string := map fst d.
Definition values {V : Type} (d : dict V) : list V := map snd d.

(** A list of pairs is a dictionary when no key occurs twice. *)
Definition wf_dict {V : Type} (d : dict V) : Prop := NoDup (keys d).

(** [l[start:]] *)
Definition py_slice_from {A : Type} (start : Z) (l : list A) : list A :=
  let n := Z.of_nat (List.length l) in
  let s := if start <? 0 then Z.max (start + n) 0 else Z.min start n in
  skipn (Z.to_nat s) l.

(** [l.pop(0)], on the list that remains. *)
Definition pop0 {A : Type} (l : list A) : list A := tl l.

(** [max(items, key=f)] on a non-empty iterable [first :: rest]: a later
    item replaces the running maximum only when its key is strictly larger. *)
Fixpoint py_max_by {A : Type} (key : A -> Q) (best : A) (rest : list A) : A :=
  match rest with
  | [] => best
  | x :: rest' => py_max_by key (if Qltb (key best) (key x) then x else best) rest'
  end.

(** [sum(xs)] *)
Definition py_sum (xs : list Q) : Q := fold_left Qplus xs 0%Q.

(** [s.lower()], on ASCII letters. *)
Definition lower_ascii (c : ascii) : ascii :=
  let n := nat_of_ascii c in
  if ((65 <=? n) && (n <=? 90))%nat then ascii_of_nat (n + 32) else c.

Fixpoint lower (s : string) : string :=
  match s with
  | EmptyString => EmptyString
  | String c s' => String (lower_ascii c) (lower s')
  end.

End PyData.
Export PyData.

(** ** [lighting_controller.py] *)

Module Lighting.

Definition Color : Type := (Z * Z * Z)%type.

Definition color_eqb (c d : Color) : bool :=
  let '(r1, g1, b1) := c in
  let '(r2, g2, b2) := d in
  (r1 =? r2) && (g1 =? g2) && (b1 =? b2).

(** One dictionary of [session_log]. *)
Record LogEntry : Type := mkLogEntry {
  timestamp : string;
  event : string;
  emotion : option string;
  color : option Color
}.

(** The attributes of a [LightingController]. *)
Record LightingController : Type := mkLightingController {
  current_color : Color;
  target_color : Color;
  is_on : bool;
  brightness : Q;
  transition_speed : Q;
  last_update : Q;
  session_log : list LogEntry
}.

(** [__init__]; [now] is the reading of [time.time()]. *)
Definition init (now : Q) : LightingController :=
  {| current_color := (200, 200, 200);
     target_color := (200, 200, 200);
     is_on := false;
     brightness := 7 # 10;
     transition_speed := 1 # 10;
     last_update := now;
     session_log := [] |}.

Definition set_emotion_color (color : Color) (smooth : bool)
    (self : LightingController) : LightingController :=
  if smooth then
    {| current_color := current_color self;
       target_color := color;
       is_on := is_on self;
       brightness := brightness self;
       transition_speed := transition_speed self;
       last_update := last_update self;
       session_log := session_log self |}
  else
    {| current_color := color;
       target_color := color;
       is_on := is_on self;
       brightness := brightness self;
       transition_speed := transition_speed self;
       last_update := last_update self;
       session_log := session_log self |}.

(** [step = self.transition_speed * dt * 10] *)
Definition step_of (self : LightingController) (dt : Q) : Q :=
  (transition_speed self * dt * 10)%Q.

(** [int(c1 + (c2 - c1) * step)] *)
Definition interpolate (c1 c2 : Z) (step : Q) : Z :=
  py_int (of_int c1 + of_int (c2 - c1) * step)%Q.

(** [abs(r - r2) < 5 and abs(g - g2) < 5 and abs(b - b2) < 5] *)
Definition close_enough (c d : Color) : bool :=
  let '(r, g, b) := c in
  let '(r2, g2, b2) := d in
  (Z.abs (r - r2) <? 5) && (Z.abs (g - g2) <? 5) && (Z.abs (b - b2) <? 5).

(** The three interpolated channels [(r, g, b)]. *)
Definition interpolated (self : LightingController) (dt : Q) : Color :=
  let '(r1, g1, b1) := current_color self in
  let '(r2, g2, b2) := target_color self in
  let step := step_of self dt in
  let r := interpolate r1 r2 step in
  let g := interpolate g1 g2 step in
  let b := interpolate b1 b2 step in
  (r, g, b).

(** The colour the body of [if self.current_color != self.target_color]
    assigns to [self.current_color]. *)
Definition transition (self : LightingController) (dt : Q) : Color :=
  let new := interpolated self dt in
  if close_enough new (target_color self) then target_color self
  else new.

(** [update]; [current_time] is the reading of [time.time()]. *)
Definition update (current_time : Q) (self : LightingController)
    : LightingController :=
  let dt := (current_time - last_update self)%Q in
  {| current_color :=
       if negb (color_eqb (current_color self) (target_color self))
       then transition self dt
       else current_color self;
     target_color := target_color self;
     is_on := is_on self;
     brightness := brightness self;
     transition_speed := transition_speed self;
     last_update := current_time;
     session_log := session_log self |}.

Definition get_current_color (self : LightingController) : Color :=
  if negb (is_on self) then (0, 0, 0)
  else
    let '(r, g, b) := current_color self in
    (py_int (of_int r * brightness self)%Q,
     py_int (of_int g * brightness self)%Q,
     py_int (of_int b * brightness self)%Q).

(** [max(0.0, min(1.0, brightness))] *)
Definition set_brightness (b : Q) (self : LightingController)
    : LightingController :=
  {| current_color := current_color self;
     target_color := target_color self;
     is_on := is_on self;
     brightness := py_max 0 (py_min 1 b);
     transition_speed := transition_speed self;
     last_update := last_update self;
     session_log := session_log self |}.

(** [log_event]; [stamp] is the formatted reading of [datetime.now()]. *)
Definition log_event (stamp : string) (event_type : string)
    (emo : option string) (col : option Color)
    (self : LightingController) : LightingController :=
  {| current_color := current_color self;
     target_color := target_color self;
     is_on := is_on self;
     brightness := brightness self;
     transition_speed := transition_speed self;
     last_update := last_update self;
     session_log := session_log self ++ [mkLogEntry stamp event_type emo col] |}.

Definition with_is_on (b : bool) (self : LightingController)
    : LightingController :=
  {| current_color := current_color self;
     target_color := target_color self;
     is_on := b;
     brightness := brightness self;
     transition_speed := transition_speed self;
     last_update := last_update self;
     session_log := session_log self |}.

Definition turn_on (stamp : string) (self : LightingController)
    : LightingController :=
  log_event stamp "lights_on" None None (with_is_on true self).

Definition turn_off (stamp : string) (self : LightingController)
    : LightingController :=
  log_event stamp "lights_off" None None (with_is_on false self).

Definition get_session_log (self : LightingController) : list LogEntry :=
  session_log self.

Definition clear_log (self : LightingController) : LightingController :=
  {| current_color := current_color self;
     target_color := target_color self;
     is_on := is_on self;
     brightness := brightness self;
     transition_speed := transition_speed self;
     last_update := last_update self;
     session_log := [] |}.

(** Channel access, used to state per-channel properties. *)
Inductive Channel : Type := Red | Green | Blue.

Definition chan (i : Channel) (c : Color) : Z :=
  let '(r, g, b) := c in
  match i with Red => r | Green => g | Blue => b end.

(** [x] lies between [a] and [b], whichever of the two is larger. *)
Definition between (a x b : Z) : Prop :=
  (a <= x <= b) \/ (b <= x <= a).

(** A channel value a light can show. *)
Definition in_range (c : Z) : Prop := 0 <= c <= 255.

Definition color_in_range (c : Color) : Prop :=
  forall i, in_range (chan i c).

(** The elapsed time [update] computes at clock reading [now]. *)
Definition elapsed (now : Q) (self : LightingController) : Q :=
  (now - last_update self)%Q.


End Lighting.

(** ** [emotion_detector.py] *)

Module Detector.

Definition Color : Type := Lighting.Color.

(** The body of a [try]: a value, or the message of the exception raised. *)
Inductive outcome (A : Type) : Type :=
| Returns (a : A)
| Raises (e : string).
Arguments Returns {A} a.
Arguments Raises {A} e.

Definition bind {A B : Type} (m : outcome A) (k : A -> outcome B) : outcome B :=
  match m with
  | Returns a => k a
  | Raises e => Raises e
  end.

Notation "x <- m ;; k" := (bind m (fun x => k))
  (at level 61, m at next level, right associativity).

Definition EMOTION_COLORS : dict Color :=
  [ ("happy"%string, (255, 200, 0));
    ("sad"%string, (100, 150, 255));
    ("angry"%string, (255, 50, 50));
    ("surprise"%string, (255, 255, 100));
    ("fear"%string, (150, 100, 200));
    ("disgust"%string, (100, 200, 100));
    ("neutral"%string, (200, 200, 200)) ].

(** One dictionary of [emotion_history]. *)
Record Entry : Type := mkEntry {
  emotion : string;
  scores : dict Q;
  color : Color
}.

(** The attributes of an [EmotionDetector]. *)
Record EmotionDetector : Type := mkEmotionDetector {
  last_emotion : option string;
  emotion_history : list Entry
}.

(** [__init__] *)
Definition init : EmotionDetector :=
  {| last_emotion := None; emotion_history := [] |}.

(** The dictionary [detect_emotion] returns; [r_error] is its ['error']
    key, present on the fallback only. *)
Record Detection : Type := mkDetection {
  r_emotion : string;
  r_dominant_emotion : string;
  r_scores : dict Q;
  r_color : Color;
  r_face_detected : bool;
  r_error : option string
}.

(** What [DeepFace.analyze] hands back for one face: the keys ['emotion']
    and ['dominant_emotion'] of its dictionary, when present. *)
Record FaceResult : Type := mkFaceResult {
  fr_emotion : option (dict Q);
  fr_dominant_emotion : option string
}.

(** [DeepFace.analyze] returns one dictionary or a list of them. *)
Inductive AnalyzeResult : Type :=
| OneFace (r : FaceResult)
| Faces (rs : list FaceResult).

(** [get_color_for_emotion], also written inline in the two methods below. *)
Definition get_color_for_emotion (emo : string) : Color :=
  dict_get_or EMOTION_COLORS (lower emo) (200, 200, 200).

(** Lines 66-76 of [detect_emotion]: set [last_emotion], append to the
    history, then drop the oldest entry when more than 30 are held. *)
Definition remember (e : Entry) (self : EmotionDetector) : EmotionDetector :=
  let history := emotion_history self ++ [e] in
  {| last_emotion := Some (emotion e);
     emotion_history :=
       if (30 <? List.length history)%nat then pop0 history else history |}.

(** The fallback dictionary of the [except] branch. *)
Definition no_face (e : string) : Detection :=
  {| r_emotion := "none";
     r_dominant_emotion := "none";
     r_scores := [];
     r_color := (128, 128, 128);
     r_face_detected := false;
     r_error := Some e |}.

Section WithClassifier.

(** The external collaborators: frames, [cv2.cvtColor] and
    [DeepFace.analyze].  Either call may raise. *)
Variable Frame : Type.
Variable cvtColor : Frame -> outcome Frame.
Variable analyze : Frame -> outcome AnalyzeResult.

(** [result = result[0]] when [result] is a list. *)
Definition first_face (result : AnalyzeResult) : outcome FaceResult :=
  match result with
  | OneFace r => Returns r
  | Faces [] => Raises "list index out of range"
  | Faces (r :: _) => Returns r
  end.

(** The [try] block.  Every statement that can raise comes before the first
    assignment to [self], so the block yields the new detector together with
    the result, or raises with the detector untouched. *)
Definition try_detect (frame : Frame) (self : EmotionDetector)
    : outcome (EmotionDetector * Detection) :=
  rgb_frame <- cvtColor frame ;;
  result <- analyze rgb_frame ;;
  result <- first_face result ;;
  let emotion_scores :=
    match fr_emotion result with Some d => d | None => [] end in
  let dominant_emotion :=
    match fr_dominant_emotion result with
    | Some s => s
    | None => "neutral"%string
    end in
  let color := dict_get_or EMOTION_COLORS (lower dominant_emotion) (200, 200, 200) in
  Returns
    (remember (mkEntry dominant_emotion emotion_scores color) self,
     {| r_emotion := dominant_emotion;
        r_dominant_emotion := dominant_emotion;
        r_scores := emotion_scores;
        r_color := color;
        r_face_detected := true;
        r_error := None |}).

Definition detect_emotion (frame : Frame) (self : EmotionDetector)
    : EmotionDetector * Detection :=
  match try_detect frame self with
  | Returns out => out
  | Raises e => (self, no_face e)
  end.

(** The entry a successful call on [frame] appends to the history, if the
    classification of [frame] succeeds. *)
Definition observation (frame : Frame) : option Entry :=
  let r := snd (detect_emotion frame init) in
  if r_face_detected r
  then Some (mkEntry (r_dominant_emotion r) (r_scores r) (r_color r))
  else None.

(** The entries a run of calls records, oldest first. *)
Definition observations (frames : list Frame) : list Entry :=
  flat_map
    (fun frame => match observation frame with Some e => [e] | None => [] end)
    frames.

(** A run of calls of [detect_emotion], one per frame, oldest first. *)
Definition detect_all (frames : list Frame) (self : EmotionDetector)
    : EmotionDetector :=
  fold_left (fun s frame => fst (detect_emotion frame s)) frames self.

(** The ways the classification of [frame] can fail with message [e]: the
    colour conversion raises, the analysis raises, or the analysis returns
    an empty list, whose first element does not exist. *)
Definition classification_fails (frame : Frame) (e : string) : Prop :=
  cvtColor frame = Raises e \/
  exists rgb_frame,
    cvtColor frame = Returns rgb_frame /\
    (analyze rgb_frame = Raises e \/
     (analyze rgb_frame = Returns (Faces []) /\
      e = "list index out of range"%string)).

End WithClassifier.

(** The dictionary [get_average_emotion] returns. *)
Record Average : Type := mkAverage {
  avg_emotion : string;
  avg_scores : dict Q;
  avg_color : Color
}.

(** [all_scores[emotion] = all_scores.get(emotion, 0) + score] for one
    item [(emotion, score)]. *)
Definition add_item (all_scores : dict Q) (item : string * Q) : dict Q :=
  dict_set all_scores (fst item)
    (dict_get_or all_scores (fst item) 0 + snd item)%Q.

(** The inner loop, over the items of the entry's scores. *)
Definition add_scores (all_scores : dict Q) (entry : Entry) : dict Q :=
  fold_left add_item (scores entry) all_scores.

(** The outer loop over [recent], from the empty dictionary. *)
Definition sum_scores (recent : list Entry) : dict Q :=
  fold_left add_scores recent [].

(** [all_scores[emotion] /= len(recent)] for every key. *)
Definition normalize (all_scores : dict Q) (n : nat) : dict Q :=
  map (fun item => (fst item, (snd item / of_int (Z.of_nat n))%Q)) all_scores.

(** [max(all_scores.items(), key=lambda x: x[1])[0] if all_scores else 'neutral'] *)
Definition dominant_of (all_scores : dict Q) : string :=
  match all_scores with
  | [] => "neutral"
  | first :: rest => fst (py_max_by snd first rest)
  end.

(** Lines 112-132 of [get_average_emotion]: the result computed from
    [recent]. *)
Definition average_over (recent : list Entry) : Average :=
  let all_scores := sum_scores recent in
  let total := py_sum (values all_scores) in
  let all_scores :=
    if Qltb 0 total then normalize all_scores (List.length recent)
    else all_scores in
  let dominant := dominant_of all_scores in
  let color := dict_get_or EMOTION_COLORS (lower dominant) (200, 200, 200) in
  {| avg_emotion := dominant;
     avg_scores := all_scores;
     avg_color := color |}.

Definition get_average_emotion (window_size : Z) (self : EmotionDetector)
    : option Average :=
  match emotion_history self with
  | [] => None
  | _ :: _ =>
      let recent := py_slice_from (- window_size) (emotion_history self) in
      Some (average_over recent)
  end.

(** [reset] *)
Definition reset (self : EmotionDetector) : EmotionDetector :=
  {| last_emotion := None; emotion_history := [] |}.

(** *** Vocabulary for the properties *)

(** The last [n] elements of a list (all of it when it is shorter). *)
Definition last_n {A : Type} (n : nat) (l : list A) : list A :=
  skipn (List.length l - n) l.

(** A run of recorded observations, oldest first. *)
Definition record_all (es : list Entry) (self : EmotionDetector)
    : EmotionDetector :=
  fold_left (fun s e => remember e s) es self.

(** What an observation contributes to key [k]: its score, or 0 when its
    score map lacks the key. *)
Definition score_of (k : string) (e : Entry) : Q :=
  dict_get_or (scores e) k 0%Q.

(** The sum of the contributions of a window of observations to key [k]. *)
Definition total_of (k : string) (recent : list Entry) : Q :=
  fold_right (fun e acc => (score_of k e + acc)%Q) 0%Q recent.

(** An observation as the classifier produces it: its score map is a
    dictionary of non-negative scores (probabilities in percent). *)
Definition nonneg_dict (d : dict Q) : Prop :=
  Forall (fun item => (0 <= snd item)%Q) d.

Definition wf_entry (e : Entry) : Prop :=
  wf_dict (scores e) /\ nonneg_dict (scores e).

End Detector.

(** ** Sequences of calls on a [LightingController] *)

Module Session.
Import Lighting.

(** One call of a public method, with the readings of the clock it makes. *)
Inductive Call : Type :=
| CallSetEmotionColor (c : Color) (smooth : bool)
| CallUpdate (current_time : Q)
| CallSetBrightness (b : Q)
| CallTurnOn (stamp : string)
| CallTurnOff (stamp : string)
| CallLogEvent (stamp event_type : string) (emo : option string)
    (col : option Color)
| CallClearLog.

Definition call (c : Call) (self : LightingController) : LightingController :=
  match c with
  | CallSetEmotionColor col smooth => set_emotion_color col smooth self
  | CallUpdate current_time => update current_time self
  | CallSetBrightness b => set_brightness b self
  | CallTurnOn stamp => turn_on stamp self
  | CallTurnOff stamp => turn_off stamp self
  | CallLogEvent stamp event_type emo col => log_event stamp event_type emo col self
  | CallClearLog => clear_log self
  end.

(** The calls of a program, first to last. *)
Definition run (cs : list Call) (self : LightingController)
    : LightingController :=
  fold_left (fun s c => call c s) cs self.

(** The entry a call appends to [session_log], if it appends one. *)
Definition logged (c : Call) : list LogEntry :=
  match c with
  | CallTurnOn stamp => [mkLogEntry stamp "lights_on" None None]
  | CallTurnOff stamp => [mkLogEntry stamp "lights_off" None None]
  | CallLogEvent stamp event_type emo col => [mkLogEntry stamp event_type emo col]
  | _ => []
  end.

Definition is_clear_log (c : Call) : bool :=
  match c with CallClearLog => true | _ => false end.

Definition is_turn_on (c : Call) : bool :=
  match c with CallTurnOn _ => true | _ => false end.

(** Successive [update]s at the given clock readings. *)
Definition updates (times : list Q) (self : LightingController)
    : LightingController :=
  fold_left (fun s t => update t s) times self.

End Session.

(** ** [app.py] *)

Module App.

(** [format(n, "02x")]: lower-case hexadecimal digits, a minus sign for a
    negative number, zeros between sign and digits up to a width of 2. *)
Definition format_02x (n : Z) : string :=
  let sign := match n with Zneg _ => "-"%string | _ => ""%string end in
  let digits :=
    match n with
    | Z0 => "0"%string
    | Zpos p | Zneg p => HexString.Raw.of_pos p ""
    end in
  let fill := (2 - String.length sign - String.length digits)%nat in
  (sign ++ string_of_list_ascii (repeat "0"%char fill) ++ digits)%string.

(** [rgb_to_hex] *)
Definition rgb_to_hex (rgb : Lighting.Color) : string :=
  let '(r, g, b) := rgb in
  ("#" ++ format_02x r ++ format_02x g ++ format_02x b)%string.

Section Main.

Variable Frame : Type.
Variable cvtColor : Frame -> Detector.outcome Frame.
Variable analyze : Frame -> Detector.outcome Detector.AnalyzeResult.

(** [st.session_state] *)
Record SessionState : Type := mkSessionState {
  emotion_detector : Detector.EmotionDetector;
  lighting_controller : Lighting.LightingController;
  camera_active : bool;
  calibration_mode : bool
}.

(** What the widgets and the clock return during one run of [main]:
    the two lighting buttons, the brightness slider, the calibration
    checkbox, the "Clear Log" and camera buttons, the decoded camera frame
    if one was taken, [time.time()] and the formatted [datetime.now()]. *)
Record Inputs : Type := mkInputs {
  turn_on_clicked : bool;
  turn_off_clicked : bool;
  slider_brightness : Q;
  calibration_checked : bool;
  clear_log_clicked : bool;
  camera_clicked : bool;
  camera_input : option Frame;
  clock : Q;
  stamp : string
}.

(** [result['emotion'] != st.session_state.emotion_detector.last_emotion] *)
Definition differs (emo : string) (last : option string) : bool :=
  match last with
  | Some l => negb (String.eqb emo l)
  | None => true
  end.

(** Lines 116-150 of [main]: one camera frame.  Returns the detector, the
    controller and the light colour handed to [create_color_overlay]
    ([None] when no face is detected and the frame is shown as it is).
    What numpy then does with that colour is not modelled: it writes it
    into a [uint8] array, which raises or wraps when a channel is outside
    0..255; the detector and the controller are as returned here either
    way. *)
Definition process_frame (calibration : bool) (now : Q) (stamp : string)
    (frame : Frame)
    (detector : Detector.EmotionDetector)
    (controller : Lighting.LightingController)
    : Detector.EmotionDetector * Lighting.LightingController
      * option Lighting.Color :=
  let '(detector, result) :=
    Detector.detect_emotion Frame cvtColor analyze frame detector in
  if Detector.r_face_detected result then
    let controller :=
      if negb calibration
      then Lighting.set_emotion_color (Detector.r_color result) true controller
      else controller in
    let controller := Lighting.update now controller in
    let light_color := Lighting.get_current_color controller in
    let controller :=
      if differs (Detector.r_emotion result) (Detector.last_emotion detector)
      then Lighting.log_event stamp "emotion_change"
             (Some (Detector.r_emotion result))
             (Some (Detector.r_color result)) controller
      else controller in
    (detector, controller, Some light_color)
  else (detector, controller, None).

(** The effect of one run of [main] on the session state. *)
Definition main (inp : Inputs) (st : SessionState) : SessionState :=
  let controller := lighting_controller st in
  let controller :=
    if turn_on_clicked inp then Lighting.turn_on (stamp inp) controller
    else controller in
  let controller :=
    if turn_off_clicked inp then Lighting.turn_off (stamp inp) controller
    else controller in
  let controller := Lighting.set_brightness (slider_brightness inp) controller in
  let calibration := calibration_checked inp in
  let controller :=
    if clear_log_clicked inp then Lighting.clear_log controller
    else controller in
  let active :=
    if camera_clicked inp then negb (camera_active st) else camera_active st in
  let '(detector, controller) :=
    if active then
      match camera_input inp with
      | Some frame =>
          fst (process_frame calibration (clock inp) (stamp inp) frame
                 (emotion_detector st) controller)
      | None => (emotion_detector st, controller)
      end
    else (emotion_detector st, controller) in
  {| emotion_detector := detector;
     lighting_controller := controller;
     camera_active := active;
     calibration_mode := calibration |}.

(** Successive runs of [main], first to last. *)
Definition mains (inps : list Inputs) (st : SessionState) : SessionState :=
  fold_left (fun s inp => main inp s) inps st.

End Main.

(** The session state the script creates on its first run; [now] is the
    reading of [time.time()] in [LightingController.__init__]. *)
Definition initial_state (now : Q) : SessionState :=
  {| emotion_detector := Detector.init;
     lighting_controller := Lighting.init now;
     camera_active := false;
     calibration_mode := false |}.

End App.

(** ** Floating-point arithmetic *)

Module Float.

(** The nearest integer, ties to the even one. *)
Definition round_half_even (x : Q) : Z :=
  let f := Qfloor x in
  match (x - inject_Z f ?= 1 # 2)%Q with
  | Lt => f
  | Gt => f + 1
  | Eq => if Z.even f then f else f + 1
  end.

(** [floor (log2 |x|)] for a non-zero [x]: the difference of the bit
    lengths of numerator and denominator, or one less. *)
Definition ilog2 (x : Q) : Z :=
  let l := Z.log2 (Z.abs (Qnum x)) - Z.log2 (Zpos (Qden x)) in
  if Qle_bool (2 ^ l) (Qabs x) then l else l - 1.

(** Rounding to 53 significant bits, to nearest, ties to even: what a
    binary64 operation does to its exact result (the exponent is not
    bounded: neither overflow nor subnormal numbers are modelled). *)
Definition round53 (x : Q) : Q :=
  let y := Qred x in
  if Qnum y =? 0 then 0%Q
  else
    let e := ilog2 y - 52 in
    (inject_Z (round_half_even (y / 2 ^ e)) * 2 ^ e)%Q.

(** What the properties below use of a rounding: it depends on the value
    only, keeps zero, keeps positive numbers positive (no underflow: the
    properties apply it to sums of non-negative floats, which never
    underflow), and leaves the integers 0..255 as they are. *)
Record Rounding (rnd : Q -> Q) : Prop := mkRounding {
  rnd_proper : Proper (Qeq ==> Qeq) rnd;
  rnd_zero : (rnd 0 == 0)%Q;
  rnd_pos : forall x : Q, (0 < x)%Q -> (0 < rnd x)%Q;
  rnd_byte : forall z : Z, 0 <= z <= 255 -> (rnd (inject_Z z) == inject_Z z)%Q
}.

Section Ops.
Variable rnd : Q -> Q.

(** [x + y], [x - y], [x * y], [x / y] on floats: the exact result,
    rounded. *)
Definition fadd (x y : Q) : Q := rnd (x + y).
Definition fsub (x y : Q) : Q := rnd (x - y).
Definition fmul (x y : Q) : Q := rnd (x * y).
Definition fdiv (x y : Q) : Q := rnd (x / y).

(** An [int] operand of a float operation, or a decimal literal, is
    converted to the nearest float. *)
Definition fl_of_int (z : Z) : Q := rnd (inject_Z z).
Definition fl_literal (q : Q) : Q := rnd q.

End Ops.

End Float.

(** ** [lighting_controller.py], with rounded arithmetic *)

Module RoundedLighting.
Import Lighting Float.

Section WithRounding.
Variable rnd : Q -> Q.

(** [__init__]: [0.7] and [0.1] are the floats nearest to 7/10 and 1/10. *)
Definition init (now : Q) : LightingController :=
  {| current_color := (200, 200, 200);
     target_color := (200, 200, 200);
     is_on := false;
     brightness := fl_literal rnd (7 # 10);
     transition_speed := fl_literal rnd (1 # 10);
     last_update := now;
     session_log := [] |}.

(** [step = self.transition_speed * dt * 10] *)
Definition step_of (self : LightingController) (dt : Q) : Q :=
  fmul rnd (fmul rnd (transition_speed self) dt) (fl_of_int rnd 10).

(** [int(c1 + (c2 - c1) * step)]: [c2 - c1] is an exact [int]. *)
Definition interpolate (c1 c2 : Z) (step : Q) : Z :=
  py_int (fadd rnd (fl_of_int rnd c1) (fmul rnd (fl_of_int rnd (c2 - c1)) step)).

Definition interpolated (self : LightingController) (dt : Q) : Color :=
  let '(r1, g1, b1) := current_color self in
  let '(r2, g2, b2) := target_color self in
  let step := step_of self dt in
  let r := interpolate r1 r2 step in
  let g := interpolate g1 g2 step in
  let b := interpolate b1 b2 step in
  (r, g, b).

Definition transition (self : LightingController) (dt : Q) : Color :=
  let new := interpolated self dt in
  if close_enough new (target_color self) then target_color self
  else new.

(** [update]; [current_time] is the reading of [time.time()]. *)
Definition update (current_time : Q) (self : LightingController)
    : LightingController :=
  let dt := fsub rnd current_time (last_update self) in
  {| current_color :=
       if negb (color_eqb (current_color self) (target_color self))
       then transition self dt
       else current_color self;
     target_color := target_color self;
     is_on := is_on self;
     brightness := brightness self;
     transition_speed := transition_speed self;
     last_update := current_time;
     session_log := session_log self |}.

(** [get_current_color]: [int(r * self.brightness)] per channel. *)
Definition get_current_color (self : LightingController) : Color :=
  if negb (is_on self) then (0, 0, 0)
  else
    let '(r, g, b) := current_color self in
    (py_int (fmul rnd (fl_of_int rnd r) (brightness self)),
     py_int (fmul rnd (fl_of_int rnd g) (brightness self)),
     py_int (fmul rnd (fl_of_int rnd b) (brightness self))).

End WithRounding.

End RoundedLighting.

(** ** [get_average_emotion], with rounded arithmetic *)

Module RoundedDetector.
Import Detector Float.

Section WithRounding.
Variable rnd : Q -> Q.

(** [all_scores[emotion] = all_scores.get(emotion, 0) + score] *)
Definition add_item (all_scores : dict Q) (item : string * Q) : dict Q :=
  dict_set all_scores (fst item)
    (fadd rnd (dict_get_or all_scores (fst item) 0%Q) (snd item)).

Definition add_scores (all_scores : dict Q) (entry : Entry) : dict Q :=
  fold_left add_item (scores entry) all_scores.

Definition sum_scores (recent : list Entry) : dict Q :=
  fold_left add_scores recent [].

(** [sum(xs)]: additions from 0, left to right. *)
Definition py_sum (xs : list Q) : Q := fold_left (fadd rnd) xs 0%Q.

(** [all_scores[emotion] /= len(recent)] for every key. *)
Definition normalize (all_scores : dict Q) (n : nat) : dict Q :=
  map (fun item =>
         (fst item, fdiv rnd (snd item) (fl_of_int rnd (Z.of_nat n))))
      all_scores.

(** Lines 112-132 of [get_average_emotion]. *)
Definition average_over (recent : list Entry) : Average :=
  let all_scores := sum_scores recent in
  let total := py_sum (values all_scores) in
  let all_scores :=
    if Qltb 0 total then normalize all_scores (List.length recent)
    else all_scores in
  let dominant := dominant_of all_scores in
  let color := dict_get_or EMOTION_COLORS (lower dominant) (200, 200, 200) in
  {| avg_emotion := dominant;
     avg_scores := all_scores;
     avg_color := color |}.

Definition get_average_emotion (window_size : Z) (self : EmotionDetector)
    : option Average :=
  match emotion_history self with
  | [] => None
  | _ :: _ =>
      let recent := py_slice_from (- window_size) (emotion_history self) in
      Some (average_over recent)
  end.

(** The floating-point sum of the scores a window of observations holds
    for key [k], added in order from 0; an observation without the key
    adds nothing. *)
Definition total_of (k : string) (recent : list Entry) : Q :=
  fold_left
    (fun acc e =>
       match dict_get (scores e) k with
       | Some v => fadd rnd acc v
       | None => acc
       end)
    recent 0%Q.

End WithRounding.

End RoundedDetector.

(** * Properties *)

(** ** Truncation toward zero *)

Section PyIntFacts.

Lemma Qnum_neg_iff (x : Q) : (Qnum x <? 0) = true <-> (x < 0)%Q.
Proof.
  rewrite Z.ltb_lt. unfold Qlt. simpl. lia.
Qed.

Lemma Qnum_nonneg_iff (x : Q) : (Qnum x <? 0) = false <-> (0 <= x)%Q.
Proof.
  rewrite Z.ltb_ge. unfold Qle. simpl. lia.
Qed.

#[global] Instance py_int_comp : Proper (Qeq ==> eq) py_int.
Proof.
  intros x y Hxy. unfold py_int.
  destruct (Qnum x <? 0) eqn:Hx, (Qnum y <? 0) eqn:Hy.
  - now rewrite Hxy.
  - apply Qnum_neg_iff in Hx. apply Qnum_nonneg_iff in Hy.
    rewrite Hxy in Hx. exfalso. apply (Qlt_not_le _ _ Hx Hy).
  - apply Qnum_nonneg_iff in Hx. apply Qnum_neg_iff in Hy.
    rewrite Hxy in Hx. exfalso. apply (Qlt_not_le _ _ Hy Hx).
  - now rewrite Hxy.
Qed.

Lemma py_int_of_int (z : Z) : py_int (of_int z) = z.
Proof.
  unfold py_int, of_int.
  destruct (Qnum (inject_Z z) <? 0); [apply Qceiling_Z | apply Qfloor_Z].
Qed.

Lemma py_int_mono (x y : Q) : (x <= y)%Q -> py_int x <= py_int y.
Proof.
  intros Hxy. unfold py_int.
  destruct (Qnum x <? 0) eqn:Hx, (Qnum y <? 0) eqn:Hy.
  - now apply Qceiling_resp_le.
  - apply Qnum_neg_iff in Hx. apply Qnum_nonneg_iff in Hy.
    transitivity 0.
    + rewrite <- (Qceiling_Z 0). apply Qceiling_resp_le. now apply Qlt_le_weak.
    + rewrite <- (Qfloor_Z 0). now apply Qfloor_resp_le.
  - apply Qnum_nonneg_iff in Hx. apply Qnum_neg_iff in Hy.
    exfalso. apply (Qlt_not_le _ _ Hy). now apply Qle_trans with x.
  - now apply Qfloor_resp_le.
Qed.

Lemma py_int_nonneg_floor (x : Q) : (0 <= x)%Q -> py_int x = Qfloor x.
Proof.
  intros Hx. unfold py_int. apply Qnum_nonneg_iff in Hx. now rewrite Hx.
Qed.

End PyIntFacts.

(** ** The lighting controller *)

Module LightingFacts.
Import Lighting.

Lemma color_eqb_eq (c d : Color) : color_eqb c d = true <-> c = d.
Proof.
  destruct c as [[r1 g1] b1], d as [[r2 g2] b2]. simpl.
  rewrite !andb_true_iff, !Z.eqb_eq. split.
  - intros [[-> ->] ->]. reflexivity.
  - intros H. injection H as -> -> ->. auto.
Qed.

Lemma close_enough_spec (c d : Color) :
  close_enough c d = true <-> forall i, Z.abs (chan i c - chan i d) < 5.
Proof.
  destruct c as [[r g] b], d as [[r2 g2] b2]. simpl.
  rewrite !andb_true_iff, !Z.ltb_lt. split.
  - intros [[Hr Hg] Hb] []; assumption.
  - intros H. repeat split; [apply (H Red) | apply (H Green) | apply (H Blue)].
Qed.

Lemma close_enough_refl (c : Color) : close_enough c c = true.
Proof.
  apply close_enough_spec. intros i. rewrite Z.sub_diag. simpl. lia.
Qed.

Lemma chan_interpolated (i : Channel) (self : LightingController) (dt : Q) :
  chan i (interpolated self dt) =
  interpolate (chan i (current_color self)) (chan i (target_color self))
    (step_of self dt).
Proof.
  unfold interpolated.
  destruct (current_color self) as [[r1 g1] b1].
  destruct (target_color self) as [[r2 g2] b2].
  destruct i; reflexivity.
Qed.

Lemma color_ext (c d : Color) : (forall i, chan i c = chan i d) -> c = d.
Proof.
  destruct c as [[r1 g1] b1], d as [[r2 g2] b2]. intros H.
  specialize (H Red) as Hr. specialize (H Green) as Hg. specialize (H Blue) as Hb.
  simpl in *. congruence.
Qed.

(** With a step of zero the interpolation returns the channel it started
    from. *)
Lemma interpolate_zero (c1 c2 : Z) (step : Q) :
  (step == 0)%Q -> interpolate c1 c2 step = c1.
Proof.
  intros Hs. unfold interpolate.
  transitivity (py_int (of_int c1)); [| apply py_int_of_int].
  apply py_int_comp. rewrite Hs. ring.
Qed.

(** With a step of one the interpolation lands on the target channel. *)
Lemma interpolate_one (c1 c2 : Z) (step : Q) :
  (step == 1)%Q -> interpolate c1 c2 step = c2.
Proof.
  intros Hs. unfold interpolate.
  transitivity (py_int (of_int c2)); [| apply py_int_of_int].
  apply py_int_comp. rewrite Hs. unfold of_int.
  unfold Z.sub. rewrite inject_Z_plus, inject_Z_opp. ring.
Qed.

(** A step in [0, 1] keeps the interpolated channel between its two ends. *)
Lemma interpolate_between (c1 c2 : Z) (step : Q) :
  (0 <= step)%Q -> (step <= 1)%Q -> between c1 (interpolate c1 c2 step) c2.
Proof.
  intros H0 H1. unfold between, interpolate.
  set (v := (of_int c1 + of_int (c2 - c1) * step)%Q).
  assert (Hd : (of_int (c2 - c1) == of_int c2 - of_int c1)%Q).
  { unfold of_int, Z.sub. rewrite inject_Z_plus, inject_Z_opp. ring. }
  destruct (Z.le_ge_cases c1 c2) as [Hle | Hge].
  - left. assert (Hq : (of_int c1 <= of_int c2)%Q)
      by (unfold of_int; now rewrite <- Zle_Qle).
    split.
    + rewrite <- (py_int_of_int c1).
      apply py_int_mono. unfold v. rewrite Hd. nra.
    + rewrite <- (py_int_of_int c2).
      apply py_int_mono. unfold v. rewrite Hd. nra.
  - right. assert (Hq : (of_int c2 <= of_int c1)%Q)
      by (unfold of_int; now rewrite <- Zle_Qle).
    split.
    + rewrite <- (py_int_of_int c2).
      apply py_int_mono. unfold v. rewrite Hd. nra.
    + rewrite <- (py_int_of_int c1).
      apply py_int_mono. unfold v. rewrite Hd. nra.
Qed.

(** What [update] does to the colour when no time has elapsed. *)
Lemma update_zero_dt (now : Q) (self : LightingController) :
  (elapsed now self == 0)%Q ->
  current_color (update now self) =
  if close_enough (current_color self) (target_color self)
  then target_color self else current_color self.
Proof.
  intros Hdt. unfold update. simpl.
  destruct (color_eqb (current_color self) (target_color self)) eqn:E; simpl.
  - apply color_eqb_eq in E. rewrite E, close_enough_refl. reflexivity.
  - assert (Hnew : interpolated self (now - last_update self)%Q
                   = current_color self).
    { apply color_ext. intros i. rewrite chan_interpolated.
      apply interpolate_zero. unfold step_of.
      unfold elapsed in Hdt. rewrite Hdt. ring. }
    unfold transition. rewrite Hnew.
    destruct (close_enough (current_color self) (target_color self)); reflexivity.
Qed.

Lemma update_current_cases (now : Q) (self : LightingController) :
  current_color (update now self) = target_color self \/
  (current_color (update now self) = interpolated self (elapsed now self) /\
   close_enough (interpolated self (elapsed now self)) (target_color self) = false).
Proof.
  unfold update, elapsed. simpl.
  destruct (color_eqb (current_color self) (target_color self)) eqn:E; simpl.
  - left. now apply color_eqb_eq.
  - unfold transition.
    destruct (close_enough _ (target_color self)) eqn:C; [left | right]; auto.
Qed.


Lemma between_in_range (a x b : Z) :
  in_range a -> in_range b -> between a x b -> in_range x.
Proof. unfold between, in_range. lia. Qed.

(** A step in [0, 1] keeps every channel of the colour [update] stores
    between the old colour and the target. *)
Lemma update_between (now : Q) (self : LightingController) (i : Channel) :
  (0 <= step_of self (elapsed now self))%Q ->
  (step_of self (elapsed now self) <= 1)%Q ->
  between (chan i (current_color self))
          (chan i (current_color (update now self)))
          (chan i (target_color self)).
Proof.
  intros H0 H1. unfold update. fold (elapsed now self). simpl.
  destruct (color_eqb (current_color self) (target_color self)) eqn:E; simpl.
  - unfold between. lia.
  - unfold transition.
    destruct (close_enough _ (target_color self)).
    + unfold between. lia.
    + rewrite chan_interpolated. now apply interpolate_between.
Qed.

(** *** Steps of at most one *)



(** When it does not snap, [update] stores the interpolated channels as
    computed; they are in [0, 255] whenever the colour before and the
    target are and the step lies in [0, 1]. *)
Theorem update_in_range (self : LightingController) (now : Q) :
  (current_color self <> target_color self ->
   close_enough (interpolated self (elapsed now self)) (target_color self) = false ->
   current_color (update now self) = interpolated self (elapsed now self)) /\
  (color_in_range (current_color self) ->
   color_in_range (target_color self) ->
   (0 <= step_of self (elapsed now self))%Q ->
   (step_of self (elapsed now self) <= 1)%Q ->
   color_in_range (current_color (update now self))).
Proof.
  split.
  - intros Hne Hfar. unfold update. fold (elapsed now self). simpl.
    destruct (color_eqb (current_color self) (target_color self)) eqn:E.
    + apply color_eqb_eq in E. contradiction.
    + simpl. unfold transition. now rewrite Hfar.
  - intros Hc Ht H0 H1 i.
    apply (between_in_range (chan i (current_color self)) _
                            (chan i (target_color self)));
      [apply Hc | apply Ht | now apply update_between].
Qed.

Lemma update_in_range_witness :
  current_color (update (1 # 2) (set_emotion_color (255, 200, 0) true (init 0)))
    = (227, 200, 100) /\
  color_in_range
    (current_color (update (1 # 2) (set_emotion_color (255, 200, 0) true (init 0)))).
Proof.
  pose proof (update_in_range (set_emotion_color (255, 200, 0) true (init 0)) (1 # 2))
    as [Hraw Hrange].
  split.
  - rewrite Hraw; [reflexivity | discriminate | reflexivity].
  - apply Hrange.
    + intros []; simpl; unfold in_range; lia.
    + intros []; simpl; unfold in_range; lia.
    + vm_compute; discriminate.
    + vm_compute; discriminate.
Defined.

(** *** Snapping (C5) *)

(** C5: when the colours differ and every interpolated channel is less
    than 5 away from the target, [update] stores the target itself; and
    from (200,200,200) with target (255,200,0), speed 0.1 and one second
    elapsed, the step is 1 and the colour becomes (255,200,0). *)
Theorem update_snaps :
  (forall (self : LightingController) (now : Q),
     current_color self <> target_color self ->
     (forall i,
        Z.abs (chan i (interpolated self (elapsed now self))
               - chan i (target_color self)) < 5) ->
     current_color (update now self) = target_color self) /\
  (forall (self : LightingController) (now : Q),
     current_color self = (200, 200, 200) ->
     (transition_speed self == 1 # 10)%Q ->
     let self' := set_emotion_color (255, 200, 0) true self in
     (elapsed now self' == 1)%Q ->
     (step_of self' (elapsed now self') == 1)%Q /\
     current_color (update now self') = (255, 200, 0)).
Proof.
  split.
  - intros self now Hne Hclose.
    apply close_enough_spec in Hclose.
    unfold update. fold (elapsed now self). simpl.
    destruct (color_eqb (current_color self) (target_color self)) eqn:E.
    + apply color_eqb_eq in E. contradiction.
    + simpl. unfold transition. now rewrite Hclose.
  - intros self now Hcur Hspeed self' Hdt.
    assert (Hstep : (step_of self' (elapsed now self') == 1)%Q).
    { unfold step_of. rewrite Hdt. subst self'. simpl. rewrite Hspeed. reflexivity. }
    split; [exact Hstep |].
    assert (Hnew : interpolated self' (elapsed now self') = (255, 200, 0)).
    { apply color_ext. intros i. rewrite chan_interpolated.
      rewrite (interpolate_one _ _ _ Hstep). reflexivity. }
    unfold update. fold (elapsed now self'). unfold transition.
    rewrite Hnew. subst self'. simpl. rewrite Hcur. reflexivity.
Qed.

Lemma update_snaps_witness :
  current_color
    (update (1 # 4) (set_emotion_color (202, 198, 200) true (init 0)))
    = (202, 198, 200) /\
  current_color
    (update (3 + 1) (set_emotion_color (255, 200, 0) true (init 3)))
    = (255, 200, 0).
Proof.
  destruct update_snaps as [Hgen Hscen]. split.
  - apply (Hgen (set_emotion_color (202, 198, 200) true (init 0)) (1 # 4)).
    + discriminate.
    + intros []; vm_compute; reflexivity.
  - apply (Hscen (init 3) (3 + 1)%Q); reflexivity.
Defined.

(** *** No elapsed time (C7, C8) *)

(** C7, as stated, fails: with no time elapsed the colour can still change.
    After 1/64 s toward (100,150,255) the colour is (198,199,200); with the
    target then set to (200,200,200), an [update] at the same clock reading
    finds every channel less than 5 away and stores (200,200,200). *)
Lemma update_zero_dt_can_change_color :
  ~ (forall (self : LightingController) (now : Q),
       (elapsed now self == 0)%Q ->
       current_color (update now self) = current_color self /\
       last_update (update now self) = now).
Proof.
  intros H.
  destruct
    (H (set_emotion_color (200, 200, 200) true
          (update (1 # 64) (set_emotion_color (100, 150, 255) true (init 0))))
       (1 # 64)) as [Hcol _].
  - reflexivity.
  - vm_compute in Hcol. discriminate.
Qed.

(** C7, amended: an [update] with no time elapsed sets [last_update] to the
    clock reading and leaves the colour as it is, unless every channel is
    already less than 5 away from the target, in which case the colour
    becomes the target. *)
Theorem update_zero_dt_spec (self : LightingController) (now : Q) :
  (elapsed now self == 0)%Q ->
  last_update (update now self) = now /\
  (close_enough (current_color self) (target_color self) = false ->
   current_color (update now self) = current_color self) /\
  (close_enough (current_color self) (target_color self) = true ->
   current_color (update now self) = target_color self).
Proof.
  intros Hdt. rewrite (update_zero_dt now self Hdt).
  split; [reflexivity |].
  split; intros ->; reflexivity.
Qed.

Lemma update_zero_dt_spec_witness :
  last_update (update 7 (set_emotion_color (255, 200, 0) true (init 7))) = 7%Q /\
  current_color (update 7 (set_emotion_color (255, 200, 0) true (init 7)))
    = (200, 200, 200).
Proof.
  destruct (update_zero_dt_spec (set_emotion_color (255, 200, 0) true (init 7)) 7)
    as [Hlast [Hfar _]].
  - reflexivity.
  - split; [exact Hlast | apply Hfar; reflexivity].
Defined.

(** C8: a second [update] at the same clock reading leaves the colour
    exactly as the first one left it. *)
Theorem update_twice_same_now (self : LightingController) (now : Q) :
  current_color (update now (update now self)) =
  current_color (update now self).
Proof.
  assert (Hdt : (elapsed now (update now self) == 0)%Q)
    by (unfold elapsed; simpl; ring).
  rewrite (update_zero_dt now (update now self) Hdt).
  change (target_color (update now self)) with (target_color self).
  destruct (update_current_cases now self) as [-> | [-> Hfar]].
  - now rewrite close_enough_refl.
  - now rewrite Hfar.
Qed.

End LightingFacts.

(** ** Dictionaries *)

Section DictFacts.
Context {V : Type}.
Implicit Types (d : dict V) (k : string) (v : V).

Lemma dict_get_set_same d k v : dict_get (dict_set d k v) k = Some v.
Proof.
  induction d as [| [k' v'] d IH]; simpl.
  - now rewrite String.eqb_refl.
  - destruct (String.eqb k' k) eqn:E; simpl; rewrite E; auto.
Qed.

Lemma dict_get_set_other d k k' v :
  k <> k' -> dict_get (dict_set d k v) k' = dict_get d k'.
Proof.
  intros Hne. induction d as [| [k0 v0] d IH]; simpl.
  - destruct (String.eqb k k') eqn:E; [apply String.eqb_eq in E; contradiction | reflexivity].
  - destruct (String.eqb k0 k) eqn:E; simpl.
    + apply String.eqb_eq in E. subst k0.
      destruct (String.eqb k k') eqn:E'; [apply String.eqb_eq in E'; contradiction | reflexivity].
    + now rewrite IH.
Qed.

Lemma dict_get_none d k : ~ In k (keys d) -> dict_get d k = None.
Proof.
  induction d as [| [k' v'] d IH]; simpl; intros Hn; [reflexivity |].
  destruct (String.eqb k' k) eqn:E.
  - apply String.eqb_eq in E. tauto.
  - apply IH. tauto.
Qed.

Lemma dict_get_in d k v : wf_dict d -> In (k, v) d -> dict_get d k = Some v.
Proof.
  unfold wf_dict. induction d as [| [k' v'] d IH]; simpl; intros Hwf Hin; [tauto |].
  inversion Hwf as [| ? ? Hnot Hwf']; subst.
  destruct Hin as [Heq | Hin].
  - injection Heq as -> ->. now rewrite String.eqb_refl.
  - destruct (String.eqb k' k) eqn:E.
    + apply String.eqb_eq in E. subst k'.
      exfalso. apply Hnot. change k with (fst (k, v)). now apply in_map.
    + now apply IH.
Qed.

Lemma dict_get_some_in d k v : dict_get d k = Some v -> In (k, v) d.
Proof.
  induction d as [| [k' v'] d IH]; simpl; [discriminate |].
  destruct (String.eqb k' k) eqn:E.
  - apply String.eqb_eq in E. intros [= ->]. left. now subst.
  - auto.
Qed.

Lemma keys_dict_set d k v x :
  In x (keys (dict_set d k v)) <-> x = k \/ In x (keys d).
Proof.
  induction d as [| [k' v'] d IH]; simpl.
  - intuition.
  - destruct (String.eqb k' k) eqn:E; simpl.
    + apply String.eqb_eq in E. subst k'. intuition.
    + rewrite IH. intuition.
Qed.

Lemma wf_dict_set d k v : wf_dict d -> wf_dict (dict_set d k v).
Proof.
  unfold wf_dict. induction d as [| [k' v'] d IH]; simpl; intros Hwf.
  - constructor; [simpl; tauto | constructor].
  - inversion Hwf as [| ? ? Hnot Hwf']; subst.
    destruct (String.eqb k' k) eqn:E; simpl.
    + now constructor.
    + constructor; [| now apply IH].
      intros Hin. apply keys_dict_set in Hin. destruct Hin as [-> | Hin].
      * now rewrite String.eqb_refl in E.
      * contradiction.
Qed.

Lemma dict_get_or_nil k v : dict_get_or ([] : dict V) k v = v.
Proof. reflexivity. Qed.

Lemma dict_get_or_cons d k1 v1 k v :
  dict_get_or ((k1, v1) :: d) k v =
  if String.eqb k1 k then v1 else dict_get_or d k v.
Proof. unfold dict_get_or. simpl. now destruct (String.eqb k1 k). Qed.

Lemma dict_get_or_set_same d k v v0 : dict_get_or (dict_set d k v) k v0 = v.
Proof. unfold dict_get_or. now rewrite dict_get_set_same. Qed.

Lemma dict_get_or_set_other d k k' v v0 :
  k <> k' -> dict_get_or (dict_set d k v) k' v0 = dict_get_or d k' v0.
Proof. intros H. unfold dict_get_or. now rewrite dict_get_set_other. Qed.

Lemma dict_get_or_none d k v0 : ~ In k (keys d) -> dict_get_or d k v0 = v0.
Proof. intros H. unfold dict_get_or. now rewrite dict_get_none. Qed.

End DictFacts.

(** ** Slices *)

Section SliceFacts.
Context {A : Type}.
Implicit Types (l m : list A) (n : nat).

Lemma length_last_n n l : List.length (Detector.last_n n l) = Nat.min n (List.length l).
Proof. unfold Detector.last_n. rewrite length_skipn. lia. Qed.

Lemma last_n_all n l : (List.length l <= n)%nat -> Detector.last_n n l = l.
Proof.
  intros H. unfold Detector.last_n.
  replace (List.length l - n)%nat with 0%nat by lia. reflexivity.
Qed.

(** Dropping old elements early does not change which ones are last. *)
Lemma last_n_app_last_n n l m :
  Detector.last_n n (Detector.last_n n l ++ m) = Detector.last_n n (l ++ m).
Proof.
  unfold Detector.last_n.
  set (k := (List.length l - n)%nat).
  assert (Hk : (k <= List.length l)%nat) by (unfold k; lia).
  assert (E : skipn k l ++ m = skipn k (l ++ m)).
  { rewrite skipn_app. replace (k - List.length l)%nat with 0%nat by lia.
    reflexivity. }
  rewrite E, skipn_skipn. f_equal.
  rewrite length_skipn, length_app. unfold k. lia.
Qed.

(** [l[-w:]] for a positive [w]: the last [min w (len l)] elements. *)
Lemma py_slice_last (w : Z) l :
  0 < w ->
  py_slice_from (- w) l =
  Detector.last_n (Nat.min (Z.to_nat w) (List.length l)) l.
Proof.
  intros Hw. unfold py_slice_from, Detector.last_n.
  destruct (- w <? 0) eqn:E; [| apply Z.ltb_ge in E; lia].
  f_equal. lia.
Qed.


End SliceFacts.

(** ** The emotion detector *)

Module DetectorFacts.
Import Detector.

(** *** The bounded history (C6) *)

Lemma remember_history (e : Entry) (self : EmotionDetector) :
  (List.length (emotion_history self) <= 30)%nat ->
  emotion_history (remember e self) = last_n 30 (emotion_history self ++ [e]).
Proof.
  intros Hlen. unfold remember, last_n, pop0. simpl.
  rewrite length_app. simpl.
  destruct (30 <? List.length (emotion_history self) + 1)%nat eqn:E.
  - apply Nat.ltb_lt in E.
    replace (List.length (emotion_history self) + 1 - 30)%nat with 1%nat by lia.
    reflexivity.
  - apply Nat.ltb_ge in E.
    replace (List.length (emotion_history self) + 1 - 30)%nat with 0%nat by lia.
    reflexivity.
Qed.

Lemma record_all_history (es : list Entry) :
  forall self : EmotionDetector,
    (List.length (emotion_history self) <= 30)%nat ->
    emotion_history (record_all es self) = last_n 30 (emotion_history self ++ es).
Proof.
  induction es as [| e es IH]; intros self Hlen.
  - simpl. rewrite app_nil_r. symmetry. now apply last_n_all.
  - simpl. unfold record_all in IH. rewrite IH.
    + rewrite (remember_history e self Hlen), last_n_app_last_n.
      now rewrite <- app_assoc.
    + rewrite (remember_history e self Hlen), length_last_n. lia.
Qed.

Section History.
Variable Frame : Type.
Variable cvtColor : Frame -> outcome Frame.
Variable analyze : Frame -> outcome AnalyzeResult.

(** One call either records the observation of its frame or leaves the
    detector as it is. *)
Lemma detect_emotion_step (frame : Frame) (self : EmotionDetector) :
  fst (detect_emotion Frame cvtColor analyze frame self) =
  match observation Frame cvtColor analyze frame with
  | Some e => remember e self
  | None => self
  end.
Proof.
  unfold observation, detect_emotion, try_detect.
  destruct (cvtColor frame) as [rgb | e]; simpl; [| reflexivity].
  destruct (analyze rgb) as [res | e]; simpl; [| reflexivity].
  destruct res as [r | [| r rs]]; reflexivity.
Qed.

Lemma detect_all_record_all (frames : list Frame) :
  forall self : EmotionDetector,
    detect_all Frame cvtColor analyze frames self =
    record_all (observations Frame cvtColor analyze frames) self.
Proof.
  induction frames as [| frame frames IH]; intros self; [reflexivity |].
  change (detect_all Frame cvtColor analyze (frame :: frames) self)
    with (detect_all Frame cvtColor analyze frames
            (fst (detect_emotion Frame cvtColor analyze frame self))).
  rewrite IH, detect_emotion_step.
  unfold observations. cbn [flat_map]. unfold record_all.
  rewrite fold_left_app.
  destruct (observation Frame cvtColor analyze frame); reflexivity.
Qed.

(** C6: whatever the classifier does, a run of [detect_emotion] calls on a
    detector holding at most 30 entries (none after [__init__]) leaves at
    most 30 entries: the last 30 of the old entries followed by the
    observations recorded, in order.  On a fresh detector, once 35
    observations have been recorded the history has exactly 30 entries:
    the 35 observations without the first 5. *)
Theorem history_bounded_fifo (frames : list Frame) :
  (forall self : EmotionDetector,
     (List.length (emotion_history self) <= 30)%nat ->
     let self' := detect_all Frame cvtColor analyze frames self in
     (List.length (emotion_history self') <= 30)%nat /\
     emotion_history self' =
       last_n 30 (emotion_history self
                  ++ observations Frame cvtColor analyze frames)) /\
  (List.length (observations Frame cvtColor analyze frames) = 35%nat ->
   let self' := detect_all Frame cvtColor analyze frames init in
   List.length (emotion_history self') = 30%nat /\
   emotion_history self' =
     skipn 5 (observations Frame cvtColor analyze frames)).
Proof.
  split.
  - intros self Hlen self'. subst self'.
    rewrite detect_all_record_all, (record_all_history _ self Hlen).
    split; [rewrite length_last_n; lia | reflexivity].
  - intros H35 self'. subst self'.
    rewrite detect_all_record_all, (record_all_history _ init) by (simpl; lia).
    simpl. split.
    + rewrite length_last_n. lia.
    + unfold last_n. now rewrite H35.
Qed.

End History.

Lemma history_bounded_fifo_witness :
  let analyze (n : nat) :=
    Returns (OneFace (mkFaceResult (Some [("happy"%string, inject_Z (Z.of_nat n))])
                                   (Some "happy"%string))) in
  let self := detect_all nat Returns analyze (seq 0 35) init in
  (List.length (emotion_history self) <= 30)%nat /\
  List.length (emotion_history self) = 30%nat /\
  map scores (emotion_history self)
    = map (fun n => [("happy"%string, inject_Z (Z.of_nat n))]) (seq 5 30).
Proof.
  intros analyze self.
  destruct (history_bounded_fifo nat Returns analyze (seq 0 35)) as [Hinv H35].
  split.
  - apply (Hinv init). simpl. lia.
  - destruct (H35 eq_refl) as [Hlen Hhist]. split; [exact Hlen |].
    subst self. rewrite Hhist. reflexivity.
Defined.

(** *** Failed classification (C9) *)

Section Fallback.
Variable Frame : Type.
Variable cvtColor : Frame -> outcome Frame.
Variable analyze : Frame -> outcome AnalyzeResult.

Lemma try_detect_fails (frame : Frame) (self : EmotionDetector) (e : string) :
  classification_fails Frame cvtColor analyze frame e ->
  try_detect Frame cvtColor analyze frame self = Raises e.
Proof.
  unfold classification_fails, try_detect.
  intros [Hc | [rgb [Hc [Ha | [Ha ->]]]]]; rewrite Hc; simpl;
    try reflexivity; rewrite Ha; reflexivity.
Qed.

(** [detect_emotion] always returns: the fallback with the detector
    untouched, or a result with [face_detected] set. *)
Lemma detect_emotion_total (frame : Frame) (self : EmotionDetector) :
  (exists e,
     detect_emotion Frame cvtColor analyze frame self = (self, no_face e)) \/
  r_face_detected (snd (detect_emotion Frame cvtColor analyze frame self)) = true.
Proof.
  unfold detect_emotion, try_detect.
  destruct (cvtColor frame) as [rgb | e]; simpl; [| left; now exists e].
  destruct (analyze rgb) as [res | e]; simpl; [| left; now exists e].
  destruct res as [r | [| r rs]]; simpl; auto.
  left. now eexists.
Qed.

(** C9: whatever the frame, [detect_emotion] returns a result (it is the
    fallback or has [face_detected] set), and when the classification fails
    (the conversion or the analysis raises, or no result comes back) it is
    the fallback: no face, label "none", no scores, the gray (128,128,128),
    which is not the neutral (200,200,200); the detector, its
    [last_emotion] and its history are as before. *)
Theorem detect_emotion_fallback (frame : Frame) (self : EmotionDetector) :
  let out := detect_emotion Frame cvtColor analyze frame self in
  ((exists e, out = (self, no_face e)) \/ r_face_detected (snd out) = true) /\
  (forall e : string,
     classification_fails Frame cvtColor analyze frame e ->
     r_face_detected (snd out) = false /\
     r_dominant_emotion (snd out) = "none"%string /\
     r_emotion (snd out) = "none"%string /\
     r_scores (snd out) = [] /\
     r_color (snd out) = (128, 128, 128) /\
     r_color (snd out) <> get_color_for_emotion "neutral" /\
     r_color (snd out) <> (200, 200, 200) /\
     r_error (snd out) = Some e /\
     fst out = self /\
     last_emotion (fst out) = last_emotion self /\
     emotion_history (fst out) = emotion_history self).
Proof.
  intros out. split; [apply detect_emotion_total |].
  intros e Hfail. subst out. unfold detect_emotion.
  rewrite (try_detect_fails frame self e Hfail). simpl.
  repeat split; discriminate.
Qed.

End Fallback.

Lemma detect_emotion_fallback_witness :
  let out :=
    detect_emotion unit (fun _ => Returns tt) (fun _ => Raises "no face")
      tt (remember (mkEntry "happy" [] (255, 200, 0)) init) in
  r_face_detected (snd out) = false /\
  r_color (snd out) = (128, 128, 128) /\
  last_emotion (fst out) = Some "happy"%string.
Proof.
  intros out.
  destruct (detect_emotion_fallback unit (fun _ => Returns tt)
              (fun _ => Raises "no face") tt
              (remember (mkEntry "happy" [] (255, 200, 0)) init)) as [_ H].
  destruct (H "no face"%string)
    as (Hface & _ & _ & _ & Hcol & _ & _ & _ & _ & Hlast & _).
  - right. exists tt. split; [reflexivity | left; reflexivity].
  - split; [exact Hface | split; [exact Hcol | exact Hlast]].
Defined.

(** *** Averaging in exact arithmetic *)

Lemma Qltb_lt (a b : Q) : Qltb a b = true <-> (a < b)%Q.
Proof.
  unfold Qltb. rewrite negb_true_iff. split.
  - intros H. apply Qnot_le_lt. intros Hle.
    apply Qle_bool_iff in Hle. congruence.
  - intros H. destruct (Qle_bool b a) eqn:E; [| reflexivity].
    apply Qle_bool_iff in E. exfalso. apply (Qlt_not_le _ _ H E).
Qed.

Lemma Qltb_ge (a b : Q) : Qltb a b = false <-> (b <= a)%Q.
Proof.
  unfold Qltb. rewrite negb_false_iff. apply Qle_bool_iff.
Qed.

(** Accumulating the items of one score map adds, for every key, what the
    map holds for it. *)
Lemma add_items_get (items : dict Q) :
  forall (acc : dict Q) (k : string),
    wf_dict items ->
    (dict_get_or (fold_left add_item items acc) k 0
     == dict_get_or acc k 0 + dict_get_or items k 0)%Q.
Proof.
  induction items as [| [k1 v1] items IH]; intros acc k Hwf.
  - simpl. rewrite dict_get_or_nil. ring.
  - inversion Hwf as [| ? ? Hnot Hwf']; subst.
    simpl fold_left. rewrite (IH _ k Hwf').
    unfold add_item. simpl fst. simpl snd.
    rewrite dict_get_or_cons.
    destruct (String.eqb k1 k) eqn:E.
    + apply String.eqb_eq in E. subst k1.
      rewrite dict_get_or_set_same, (dict_get_or_none items k 0%Q Hnot). ring.
    + assert (Hne : k1 <> k) by (intros ->; now rewrite String.eqb_refl in E).
      rewrite (dict_get_or_set_other acc k1 k _ 0%Q Hne). reflexivity.
Qed.

Lemma fold_add_scores_get (recent : list Entry) :
  forall (acc : dict Q) (k : string),
    Forall wf_entry recent ->
    (dict_get_or (fold_left add_scores recent acc) k 0
     == dict_get_or acc k 0 + total_of k recent)%Q.
Proof.
  induction recent as [| e recent IH]; intros acc k Hwf.
  - simpl. ring.
  - inversion Hwf as [| ? ? [Hd _] Hwf']; subst.
    simpl. rewrite (IH _ k Hwf'). unfold add_scores.
    rewrite (add_items_get (scores e) acc k Hd). unfold score_of. ring.
Qed.

Lemma sum_scores_get (recent : list Entry) (k : string) :
  Forall wf_entry recent ->
  (dict_get_or (sum_scores recent) k 0 == total_of k recent)%Q.
Proof.
  intros Hwf. unfold sum_scores. rewrite (fold_add_scores_get recent [] k Hwf).
  unfold dict_get_or. simpl. ring.
Qed.

(** The keys of the accumulated dictionary are the keys seen. *)
Lemma add_items_keys (items : dict Q) :
  forall (acc : dict Q) (x : string),
    In x (keys (fold_left add_item items acc)) <->
    In x (keys acc) \/ In x (keys items).
Proof.
  induction items as [| [k1 v1] items IH]; intros acc x; simpl.
  - tauto.
  - rewrite IH. unfold add_item. simpl. rewrite keys_dict_set.
    intuition congruence.
Qed.

Lemma fold_add_scores_keys (recent : list Entry) :
  forall (acc : dict Q) (x : string),
    In x (keys (fold_left add_scores recent acc)) <->
    In x (keys acc) \/ exists e, In e recent /\ In x (keys (scores e)).
Proof.
  induction recent as [| e recent IH]; intros acc x; simpl.
  - split; [tauto | intros [H | [e [[] _]]]; exact H].
  - rewrite IH. unfold add_scores. rewrite add_items_keys. split.
    + intros [[H | H] | [e' [H1 H2]]]; eauto.
    + intros [H | [e' [[-> | H1] H2]]]; eauto.
Qed.

Lemma add_items_wf (items acc : dict Q) :
  wf_dict acc -> wf_dict (fold_left add_item items acc).
Proof.
  revert acc. induction items as [| it items IH]; intros acc Hwf; simpl.
  - exact Hwf.
  - apply IH. unfold add_item. now apply wf_dict_set.
Qed.

Lemma sum_scores_wf (recent : list Entry) : wf_dict (sum_scores recent).
Proof.
  unfold sum_scores.
  assert (H : forall acc, wf_dict acc -> wf_dict (fold_left add_scores recent acc)).
  { induction recent as [| e recent IH]; intros acc Hwf; simpl.
    - exact Hwf.
    - apply IH. unfold add_scores. now apply add_items_wf. }
  apply H. constructor.
Qed.

(** Non-negative scores accumulate to non-negative sums. *)
Lemma nonneg_get (d : dict Q) (k : string) :
  nonneg_dict d -> (0 <= dict_get_or d k 0)%Q.
Proof.
  unfold nonneg_dict. induction d as [| [k' v'] d IH]; intros H.
  - rewrite dict_get_or_nil. apply Qle_refl.
  - inversion H as [| ? ? Hv Hd]; subst. rewrite dict_get_or_cons.
    destruct (String.eqb k' k); [exact Hv | now apply IH].
Qed.

Lemma nonneg_set (d : dict Q) (k : string) (v : Q) :
  nonneg_dict d -> (0 <= v)%Q -> nonneg_dict (dict_set d k v).
Proof.
  unfold nonneg_dict. induction d as [| [k' v'] d IH]; intros H Hv; simpl.
  - constructor; [exact Hv | constructor].
  - inversion H as [| ? ? Hv' Hd]; subst.
    destruct (String.eqb k' k); constructor; auto.
Qed.

Lemma add_items_nonneg (items acc : dict Q) :
  nonneg_dict items -> nonneg_dict acc ->
  nonneg_dict (fold_left add_item items acc).
Proof.
  revert acc. induction items as [| [k1 v1] items IH]; intros acc Hi Ha; simpl.
  - exact Ha.
  - inversion Hi as [| ? ? Hv Hi']; subst. apply IH; [exact Hi' |].
    unfold add_item. apply nonneg_set; [exact Ha |].
    simpl in *. pose proof (nonneg_get acc k1 Ha). lra.
Qed.

Lemma sum_scores_nonneg (recent : list Entry) :
  Forall wf_entry recent -> nonneg_dict (sum_scores recent).
Proof.
  unfold sum_scores.
  assert (H : forall acc, Forall wf_entry recent -> nonneg_dict acc ->
                          nonneg_dict (fold_left add_scores recent acc)).
  { induction recent as [| e recent IH]; intros acc Hwf Ha; simpl.
    - exact Ha.
    - inversion Hwf as [| ? ? [_ He] Hwf']; subst.
      apply IH; [exact Hwf' |]. unfold add_scores. now apply add_items_nonneg. }
  intros Hwf. apply H; [exact Hwf | constructor].
Qed.

(** A sum of non-negative numbers that is not positive has only zeros. *)
Lemma fold_Qplus_zero (xs : list Q) :
  forall a : Q,
    Forall (fun x => 0 <= x)%Q xs -> (0 <= a)%Q ->
    (fold_left Qplus xs a <= 0)%Q ->
    (a == 0)%Q /\ Forall (fun x => x == 0)%Q xs.
Proof.
  induction xs as [| x xs IH]; intros a Hxs Ha Hsum; simpl in Hsum.
  - split; [lra | constructor].
  - inversion Hxs as [| ? ? Hx Hxs']; subst.
    destruct (IH (a + x)%Q Hxs') as [Hax Hz]; [lra | exact Hsum |].
    split; [lra | constructor; [lra | exact Hz]].
Qed.

Lemma zero_dict_get (d : dict Q) (k : string) :
  Forall (fun x => x == 0)%Q (values d) -> (dict_get_or d k 0 == 0)%Q.
Proof.
  unfold values. induction d as [| [k' v'] d IH]; simpl; intros H.
  - rewrite dict_get_or_nil. reflexivity.
  - inversion H as [| ? ? Hv Hd]; subst. rewrite dict_get_or_cons.
    destruct (String.eqb k' k); [exact Hv | now apply IH].
Qed.

(** Normalising divides what every key holds and keeps the keys. *)
Lemma normalize_get (d : dict Q) (n : nat) (k : string) :
  (dict_get_or (normalize d n) k 0
   == dict_get_or d k 0 / of_int (Z.of_nat n))%Q.
Proof.
  unfold normalize. induction d as [| [k' v'] d IH]; simpl.
  - rewrite !dict_get_or_nil. unfold Qdiv. ring.
  - rewrite !dict_get_or_cons. simpl.
    destruct (String.eqb k' k); [reflexivity | exact IH].
Qed.

Lemma normalize_keys (d : dict Q) (n : nat) : keys (normalize d n) = keys d.
Proof.
  unfold normalize, keys. rewrite map_map. reflexivity.
Qed.

(** [max(items, key=...)] returns an item whose key no other exceeds. *)
Lemma py_max_by_spec {A : Type} (key : A -> Q) (rest : list A) :
  forall best : A,
    In (py_max_by key best rest) (best :: rest) /\
    forall y, In y (best :: rest) -> (key y <= key (py_max_by key best rest))%Q.
Proof.
  induction rest as [| x rest IH]; intros best; simpl.
  - split; [now left | intros y [-> | []]; apply Qle_refl].
  - destruct (IH (if Qltb (key best) (key x) then x else best)) as [Hin Hmax].
    split.
    + destruct Hin as [Hin | Hin]; [| now right; right].
      rewrite <- Hin. destruct (Qltb (key best) (key x)); auto.
    + assert (Hstep : (key best <= key (if Qltb (key best) (key x) then x else best))%Q
                      /\ (key x <= key (if Qltb (key best) (key x) then x else best))%Q).
      { destruct (Qltb (key best) (key x)) eqn:E.
        - apply Qltb_lt in E. split; [now apply Qlt_le_weak | apply Qle_refl].
        - apply Qltb_ge in E. split; [apply Qle_refl | exact E]. }
      destruct Hstep as [Hb Hx].
      assert (Htop : (key (if Qltb (key best) (key x) then x else best)
                      <= key (py_max_by key (if Qltb (key best) (key x) then x else best) rest))%Q)
        by (apply Hmax; now left).
      intros y [<- | [<- | Hy]].
      * now apply Qle_trans with (2 := Htop).
      * now apply Qle_trans with (2 := Htop).
      * apply Hmax. now right.
Qed.

Lemma Forall_last_n {A : Type} (P : A -> Prop) (n : nat) (l : list A) :
  Forall P l -> Forall P (last_n n l).
Proof.
  intros H. unfold last_n.
  rewrite <- (firstn_skipn (List.length l - n) l) in H.
  now apply Forall_app in H.
Qed.

(** What [average_over] computes from a window of observations. *)

Lemma average_over_keys (recent : list Entry) :
  keys (avg_scores (average_over recent)) = keys (sum_scores recent).
Proof.
  unfold average_over. simpl.
  destruct (Qltb 0 (py_sum (values (sum_scores recent))));
    [apply normalize_keys | reflexivity].
Qed.

Lemma average_over_key_iff (recent : list Entry) (k : string) :
  In k (keys (avg_scores (average_over recent))) <->
  exists e, In e recent /\ In k (keys (scores e)).
Proof.
  rewrite average_over_keys. unfold sum_scores.
  rewrite fold_add_scores_keys. simpl. tauto.
Qed.

Lemma average_over_get (recent : list Entry) (k : string) :
  Forall wf_entry recent ->
  (dict_get_or (avg_scores (average_over recent)) k 0
   == total_of k recent / of_int (Z.of_nat (List.length recent)))%Q.
Proof.
  intros Hwf. unfold average_over. simpl.
  destruct (Qltb 0 (py_sum (values (sum_scores recent)))) eqn:E.
  - rewrite normalize_get, (sum_scores_get recent k Hwf). reflexivity.
  - apply Qltb_ge in E. unfold py_sum in E.
    destruct (fold_Qplus_zero (values (sum_scores recent)) 0%Q) as [_ Hz].
    + unfold values. apply Forall_map. now apply sum_scores_nonneg.
    + apply Qle_refl.
    + exact E.
    + pose proof (zero_dict_get (sum_scores recent) k Hz) as H0.
      pose proof (sum_scores_get recent k Hwf) as Ht.
      rewrite H0. rewrite H0 in Ht. rewrite <- Ht. unfold Qdiv. ring.
Qed.

Lemma average_over_wf (recent : list Entry) :
  wf_dict (avg_scores (average_over recent)).
Proof.
  unfold wf_dict. rewrite average_over_keys. apply sum_scores_wf.
Qed.

Lemma get_average_emotion_some (w : Z) (self : EmotionDetector) :
  emotion_history self <> [] ->
  get_average_emotion w self =
  Some (average_over (py_slice_from (- w) (emotion_history self))).
Proof.
  unfold get_average_emotion.
  destruct (emotion_history self); [congruence | reflexivity].
Qed.

End DetectorFacts.

(** ** More on the lighting controller *)

Module LightingExtra.
Import Lighting Session LightingFacts.

(** *** Brightness *)

Lemma clamp_bounds (b : Q) :
  (0 <= py_max 0 (py_min 1 b))%Q /\ (py_max 0 (py_min 1 b) <= 1)%Q.
Proof.
  unfold py_max, py_min.
  destruct (Qltb b 1) eqn:E1.
  - apply DetectorFacts.Qltb_lt in E1.
    destruct (Qltb 0 b) eqn:E0.
    + apply DetectorFacts.Qltb_lt in E0. split; lra.
    + split; lra.
  - destruct (Qltb 0 1) eqn:E0; split; lra.
Qed.

Lemma clamp_id (b : Q) :
  (0 <= b)%Q -> (b <= 1)%Q -> (py_max 0 (py_min 1 b) == b)%Q.
Proof.
  intros H0 H1. unfold py_max, py_min.
  destruct (Qltb b 1) eqn:E1.
  - destruct (Qltb 0 b) eqn:E0; [reflexivity |].
    apply DetectorFacts.Qltb_ge in E0. lra.
  - apply DetectorFacts.Qltb_ge in E1.
    destruct (Qltb 0 1) eqn:E0; [lra |].
    apply DetectorFacts.Qltb_ge in E0. lra.
Qed.

(** [set_brightness] stores its argument clamped into [0, 1]: the argument
    itself when it is in range, 0 below and 1 above. *)
Theorem set_brightness_clamps (b : Q) (self : LightingController) :
  let b' := brightness (set_brightness b self) in
  ((0 <= b')%Q /\ (b' <= 1)%Q) /\
  ((0 <= b)%Q -> (b <= 1)%Q -> (b' == b)%Q) /\
  ((b < 0)%Q -> (b' == 0)%Q) /\
  ((1 < b)%Q -> (b' == 1)%Q).
Proof.
  cbv zeta. simpl. split; [apply clamp_bounds |].
  unfold py_max, py_min.
  destruct (Qltb b 1) eqn:E1.
  - apply DetectorFacts.Qltb_lt in E1.
    destruct (Qltb 0 b) eqn:E0.
    + apply DetectorFacts.Qltb_lt in E0. repeat split; intros; lra.
    + apply DetectorFacts.Qltb_ge in E0. repeat split; intros; lra.
  - apply DetectorFacts.Qltb_ge in E1.
    destruct (Qltb 0 1) eqn:E0.
    + repeat split; intros; lra.
    + apply DetectorFacts.Qltb_ge in E0. lra.
Qed.

Lemma set_brightness_clamps_witness :
  (brightness (set_brightness (3 # 10) (init 0)) == 3 # 10)%Q /\
  (brightness (set_brightness (- (5 # 2)) (init 0)) == 0)%Q /\
  (brightness (set_brightness 40 (init 0)) == 1)%Q.
Proof.
  split; [| split].
  - apply (set_brightness_clamps (3 # 10) (init 0)); vm_compute; discriminate.
  - apply (set_brightness_clamps (- (5 # 2)) (init 0)); vm_compute; reflexivity.
  - apply (set_brightness_clamps 40 (init 0)); vm_compute; reflexivity.
Defined.

Lemma call_brightness (c : Call) (self : LightingController) :
  ((0 <= brightness self)%Q /\ (brightness self <= 1)%Q) ->
  (0 <= brightness (call c self))%Q /\ (brightness (call c self) <= 1)%Q.
Proof.
  intros H. destruct c; simpl; try exact H.
  - destruct smooth; exact H.
  - apply clamp_bounds.
Qed.

(** Whatever methods are called on a new controller, in whatever order and
    with whatever arguments, its brightness stays in [0, 1]. *)
Theorem brightness_always_in_range (now : Q) (cs : list Call) :
  (0 <= brightness (run cs (init now)))%Q /\
  (brightness (run cs (init now)) <= 1)%Q.
Proof.
  unfold run.
  assert (H : forall self,
             ((0 <= brightness self)%Q /\ (brightness self <= 1)%Q) ->
             (0 <= brightness (fold_left (fun s c => call c s) cs self))%Q /\
             (brightness (fold_left (fun s c => call c s) cs self) <= 1)%Q).
  { induction cs as [| c cs IH]; intros self Hs; simpl; [exact Hs |].
    apply IH. now apply call_brightness. }
  apply H. simpl. split; lra.
Qed.

Lemma get_current_color_bounds (self : LightingController) (i : Channel) :
  color_in_range (current_color self) ->
  (0 <= brightness self)%Q -> (brightness self <= 1)%Q ->
  0 <= chan i (get_current_color self) <= chan i (current_color self).
Proof.
  intros Hc Hb0 Hb1.
  assert (Hi : in_range (chan i (current_color self))) by apply Hc.
  unfold get_current_color. destruct (is_on self); simpl.
  - assert (E : chan i
                  (let '(r, g, b) := current_color self in
                   (py_int (of_int r * brightness self),
                    py_int (of_int g * brightness self),
                    py_int (of_int b * brightness self)))
                = py_int (of_int (chan i (current_color self)) * brightness self)).
    { destruct (current_color self) as [[r g] b]. destruct i; reflexivity. }
    rewrite E. clear E. unfold in_range in Hi.
    set (c := chan i (current_color self)) in *.
    assert (Hq : (0 <= of_int c)%Q)
      by (unfold of_int, Qle; simpl; lia).
    split.
    + rewrite <- (py_int_of_int 0). apply py_int_mono.
      change (of_int 0) with 0%Q. now apply Qmult_le_0_compat.
    + rewrite <- (py_int_of_int c) at 2. apply py_int_mono.
      generalize dependent (of_int c). intros q Hq.
      generalize dependent (brightness self). intros b Hb0 Hb1. nra.
  - unfold in_range in Hi. destruct i; simpl; lia.
Qed.

(** With the colour in [0, 255] and the brightness in [0, 1] every output
    channel of [get_current_color] lies between 0 and the channel it
    scales: the output is a colour in range, never brighter than
    [current_color]. *)
Theorem output_in_range (self : LightingController) :
  color_in_range (current_color self) ->
  (0 <= brightness self)%Q -> (brightness self <= 1)%Q ->
  forall i,
    0 <= chan i (get_current_color self) <= chan i (current_color self) /\
    in_range (chan i (get_current_color self)).
Proof.
  intros Hc Hb0 Hb1 i.
  pose proof (get_current_color_bounds self i Hc Hb0 Hb1) as Hout.
  assert (Hi : in_range (chan i (current_color self))) by apply Hc.
  split; [exact Hout | unfold in_range in *; lia].
Qed.

Lemma output_in_range_witness :
  in_range (chan Green (get_current_color (turn_on "" (init 0)))).
Proof.
  apply (output_in_range (turn_on "" (init 0))).
  - intros []; simpl; unfold in_range; lia.
  - vm_compute; discriminate.
  - vm_compute; discriminate.
Defined.

(** *** Colour transitions *)

Lemma update_at_target (now : Q) (self : LightingController) :
  current_color self = target_color self ->
  current_color (update now self) = current_color self.
Proof.
  intros H. unfold update. simpl.
  apply color_eqb_eq in H. now rewrite H.
Qed.

Lemma updates_at_target (times : list Q) :
  forall self : LightingController,
    current_color self = target_color self ->
    current_color (updates times self) = current_color self /\
    target_color (updates times self) = target_color self.
Proof.
  unfold updates.
  induction times as [| t times IH]; intros self H; simpl; [auto |].
  assert (H1 : current_color (update t self) = target_color (update t self))
    by (rewrite (update_at_target t self H); exact H).
  destruct (IH (update t self) H1) as [Hc Ht].
  rewrite Hc, Ht. split; [now apply update_at_target | reflexivity].
Qed.

(** A colour that has reached its target stays there through any number of
    [update]s at any clock readings (going backwards included); so after
    [set_emotion_color(color, smooth=False)] the colour is [color] and
    stays [color]. *)
Theorem at_target_stays (times : list Q) :
  (forall self : LightingController,
     current_color self = target_color self ->
     current_color (updates times self) = current_color self) /\
  (forall (c : Color) (self : LightingController),
     current_color (updates times (set_emotion_color c false self)) = c).
Proof.
  split.
  - intros self H. now apply updates_at_target.
  - intros c self.
    destruct (updates_at_target times (set_emotion_color c false self)) as [H _];
      [reflexivity | exact H].
Qed.

Lemma at_target_stays_witness :
  current_color (updates [5; 2; 900]%Q (init 0)) = (200, 200, 200).
Proof.
  destruct (at_target_stays [5; 2; 900]%Q) as [H _].
  apply (H (init 0)). reflexivity.
Defined.

(** After any [update] the colour is the target itself or differs from it
    by at least 5 on some channel: it is never left within the snap
    threshold of the target without being on it. *)
Theorem update_never_almost_there (now : Q) (self : LightingController) :
  current_color (update now self) = target_color self \/
  exists i,
    5 <= Z.abs (chan i (current_color (update now self))
                - chan i (target_color self)).
Proof.
  destruct (update_current_cases now self) as [H | [H Hfar]]; [now left | right].
  rewrite H.
  destruct (interpolated self (elapsed now self)) as [[r g] b].
  destruct (target_color self) as [[r2 g2] b2].
  simpl in Hfar. rewrite !andb_false_iff, !Z.ltb_ge in Hfar.
  destruct Hfar as [[Hr | Hg] | Hb];
    [exists Red | exists Green | exists Blue]; simpl; lia.
Qed.



(** *** The session log and the switch *)

Lemma call_session_log (c : Call) (self : LightingController) :
  is_clear_log c = false ->
  session_log (call c self) = session_log self ++ logged c.
Proof.
  destruct c; simpl; intros H; try discriminate;
    try (now rewrite app_nil_r); try reflexivity.
  destruct smooth; simpl; now rewrite app_nil_r.
Qed.

Lemma run_session_log (cs : list Call) :
  forall self : LightingController,
    forallb (fun c => negb (is_clear_log c)) cs = true ->
    session_log (run cs self) = session_log self ++ flat_map logged cs.
Proof.
  unfold run. induction cs as [| c cs IH]; intros self H; simpl.
  - now rewrite app_nil_r.
  - simpl in H. apply andb_true_iff in H. destruct H as [Hc Hcs].
    apply negb_true_iff in Hc.
    rewrite (IH _ Hcs), (call_session_log c self Hc). now rewrite app_assoc.
Qed.

Lemma run_app (cs1 cs2 : list Call) (self : LightingController) :
  run (cs1 ++ cs2) self = run cs2 (run cs1 self).
Proof. unfold run. apply fold_left_app. Qed.

(** The session log is append-only until [clear_log]: calls that do not
    clear it leave the old entries in place and add, in order, one entry
    per [turn_on], [turn_off] and [log_event]; after a [clear_log] the log
    holds exactly the entries added since. *)
Theorem session_log_append_only (cs : list Call) :
  forallb (fun c => negb (is_clear_log c)) cs = true ->
  (forall self : LightingController,
     session_log (run cs self) = session_log self ++ flat_map logged cs) /\
  (forall (before : list Call) (self : LightingController),
     get_session_log (run (before ++ CallClearLog :: cs) self)
     = flat_map logged cs).
Proof.
  intros H. split.
  - intros self. now apply run_session_log.
  - intros before self. unfold get_session_log.
    rewrite run_app.
    change (run (CallClearLog :: cs) (run before self))
      with (run cs (clear_log (run before self))).
    now rewrite (run_session_log cs _ H).
Qed.

Lemma session_log_append_only_witness :
  List.length
    (session_log
       (run [CallTurnOn "09:00"; CallUpdate 3; CallSetBrightness 2;
             CallTurnOff "09:05"]
            (init 0))) = 2%nat.
Proof.
  destruct (session_log_append_only
              [CallTurnOn "09:00"; CallUpdate 3; CallSetBrightness 2;
               CallTurnOff "09:05"]) as [H _].
  - reflexivity.
  - rewrite H. reflexivity.
Defined.

Lemma call_is_on (c : Call) (self : LightingController) :
  is_turn_on c = false -> is_on self = false -> is_on (call c self) = false.
Proof.
  destruct c; simpl; intros H Hoff; try discriminate; try exact Hoff;
    try reflexivity.
  destruct smooth; exact Hoff.
Qed.

(** Once turned off the light stays dark: until the next [turn_on], no
    call (colour changes, updates, brightness, logging) makes
    [get_current_color] return anything but (0,0,0). *)
Theorem off_stays_dark (cs : list Call) (stamp : string)
    (self : LightingController) :
  forallb (fun c => negb (is_turn_on c)) cs = true ->
  get_current_color (run cs (turn_off stamp self)) = (0, 0, 0).
Proof.
  intros H.
  assert (Hoff : forall s, is_on s = false -> is_on (run cs s) = false).
  { unfold run. induction cs as [| c cs IH]; intros s Hs; simpl; [exact Hs |].
    simpl in H. apply andb_true_iff in H. destruct H as [Hc Hcs].
    apply negb_true_iff in Hc. apply (IH Hcs). now apply call_is_on. }
  unfold get_current_color. rewrite (Hoff (turn_off stamp self)); reflexivity.
Qed.

Lemma off_stays_dark_witness :
  get_current_color
    (run [CallSetEmotionColor (255, 50, 50) false; CallSetBrightness 1;
          CallUpdate 4]
         (turn_off "22:00" (turn_on "21:00" (init 0))))
  = (0, 0, 0).
Proof.
  apply (off_stays_dark
           [CallSetEmotionColor (255, 50, 50) false; CallSetBrightness 1;
            CallUpdate 4]).
  reflexivity.
Defined.

End LightingExtra.

(** ** More on the emotion detector *)

Module DetectorExtra.
Import Detector DetectorFacts.

(** *** The colour table *)

Lemma lower_ascii_idem (c : ascii) : lower_ascii (lower_ascii c) = lower_ascii c.
Proof. destruct c as [[] [] [] [] [] [] [] []]; reflexivity. Qed.

Lemma lower_idem (s : string) : lower (lower s) = lower s.
Proof.
  induction s as [| c s IH]; simpl; [reflexivity |].
  now rewrite lower_ascii_idem, IH.
Qed.

Lemma table_colors_in_range (k : string) (c : Color) :
  In (k, c) EMOTION_COLORS -> Lighting.color_in_range c.
Proof.
  unfold EMOTION_COLORS. simpl. intros H.
  repeat (destruct H as [H | H];
          [injection H as _ <-; intros []; simpl; unfold Lighting.in_range; lia |]).
  destruct H.
Qed.

Lemma get_color_for_emotion_in_range (emo : string) :
  Lighting.color_in_range (get_color_for_emotion emo).
Proof.
  unfold get_color_for_emotion, dict_get_or.
  destruct (dict_get EMOTION_COLORS (lower emo)) as [c |] eqn:E.
  - apply dict_get_some_in in E. now apply table_colors_in_range in E.
  - intros []; simpl; unfold Lighting.in_range; lia.
Qed.

(** [get_color_for_emotion] never fails: a label that is not in the table
    once lower-cased gets the neutral (200,200,200); the answer depends on
    the label only up to case; and every colour it returns has its
    channels in [0, 255]. *)
Theorem get_color_for_emotion_total (emo : string) :
  (~ In (lower emo) (keys EMOTION_COLORS) ->
   get_color_for_emotion emo = (200, 200, 200)) /\
  get_color_for_emotion (lower emo) = get_color_for_emotion emo /\
  Lighting.color_in_range (get_color_for_emotion emo).
Proof.
  unfold get_color_for_emotion. split; [| split].
  - intros H. now apply dict_get_or_none.
  - now rewrite lower_idem.
  - apply (get_color_for_emotion_in_range emo).
Qed.

Lemma get_color_for_emotion_total_witness :
  get_color_for_emotion "contempt" = (200, 200, 200).
Proof.
  destruct (get_color_for_emotion_total "contempt") as [Hmiss _].
  apply Hmiss. simpl. intros H.
  repeat (destruct H as [H | H]; [discriminate |]). destruct H.
Defined.

(** *** One call of [detect_emotion] *)

Lemma remember_last (e : Entry) (self : EmotionDetector) :
  exists older, emotion_history (remember e self) = older ++ [e].
Proof.
  unfold remember, pop0. simpl.
  destruct (30 <? List.length (emotion_history self ++ [e]))%nat eqn:E.
  - destruct (emotion_history self) as [| x h].
    + simpl in E. discriminate.
    + exists h. reflexivity.
  - now exists (emotion_history self).
Qed.

Section OneCall.
Variable Frame : Type.
Variable cvtColor : Frame -> outcome Frame.
Variable analyze : Frame -> outcome AnalyzeResult.

(** A result with [face_detected] set is consistent with the detector it
    leaves behind: its two label fields agree, its colour is the table
    colour of the label, it carries no error, [last_emotion] is its label
    and the newest history entry holds its label, scores and colour. *)
Theorem detect_emotion_success (frame : Frame) (self : EmotionDetector) :
  let out := detect_emotion Frame cvtColor analyze frame self in
  r_face_detected (snd out) = true ->
  r_emotion (snd out) = r_dominant_emotion (snd out) /\
  r_color (snd out) = get_color_for_emotion (r_emotion (snd out)) /\
  r_error (snd out) = None /\
  last_emotion (fst out) = Some (r_emotion (snd out)) /\
  exists older,
    emotion_history (fst out) =
    older ++ [mkEntry (r_emotion (snd out)) (r_scores (snd out))
                      (r_color (snd out))].
Proof.
  unfold detect_emotion, try_detect.
  destruct (cvtColor frame) as [rgb | e]; simpl; [| discriminate].
  destruct (analyze rgb) as [res | e]; simpl; [| discriminate].
  destruct res as [r | [| r rs]]; simpl; try discriminate;
    intros _; repeat split; apply remember_last.
Qed.

(** What a successful classification returns is read off the first face
    alone: further faces in a list are ignored, a missing
    ['dominant_emotion'] counts as "neutral" (and gets the neutral colour),
    a missing ['emotion'] as no scores. *)
Theorem detect_emotion_first_face (frame rgb_frame : Frame) (r : FaceResult)
    (self : EmotionDetector) :
  cvtColor frame = Returns rgb_frame ->
  (analyze rgb_frame = Returns (OneFace r) \/
   exists rs, analyze rgb_frame = Returns (Faces (r :: rs))) ->
  let out := detect_emotion Frame cvtColor analyze frame self in
  r_face_detected (snd out) = true /\
  r_emotion (snd out) =
    match fr_dominant_emotion r with Some s => s | None => "neutral"%string end /\
  r_scores (snd out) =
    match fr_emotion r with Some d => d | None => [] end /\
  (fr_dominant_emotion r = None -> r_color (snd out) = (200, 200, 200)).
Proof.
  intros Hc Ha. unfold detect_emotion, try_detect. rewrite Hc. simpl.
  destruct Ha as [Ha | [rs Ha]]; rewrite Ha; simpl;
    repeat split; intros ->; reflexivity.
Qed.

End OneCall.

Lemma detect_emotion_success_witness :
  let analyze (_ : unit) :=
    Returns (Faces [mkFaceResult (Some [("sad"%string, 75%Q)]) (Some "SAD"%string);
                    mkFaceResult None (Some "happy"%string)]) in
  let out := detect_emotion unit Returns analyze tt init in
  last_emotion (fst out) = Some "SAD"%string /\
  r_color (snd out) = (100, 150, 255).
Proof.
  intros analyze out.
  destruct (detect_emotion_success unit Returns analyze tt init eq_refl)
    as (_ & Hcol & _ & Hlast & _).
  split; [exact Hlast | exact Hcol].
Defined.

Lemma detect_emotion_first_face_witness :
  let analyze (_ : unit) :=
    Returns (Faces [mkFaceResult None None;
                    mkFaceResult None (Some "happy"%string)]) in
  let out := detect_emotion unit Returns analyze tt init in
  r_emotion (snd out) = "neutral"%string /\
  r_scores (snd out) = [] /\
  r_color (snd out) = (200, 200, 200).
Proof.
  intros analyze out.
  destruct (detect_emotion_first_face unit Returns analyze tt tt
              (mkFaceResult None None) init eq_refl)
    as (_ & Hemo & Hsc & Hcol).
  - right. eexists. reflexivity.
  - split; [exact Hemo | split; [exact Hsc | apply Hcol; reflexivity]].
Defined.

(** *** Runs of calls *)

Lemma remember_newest (e : Entry) (self : EmotionDetector) :
  hd_error (rev (emotion_history (remember e self))) = Some e.
Proof.
  destruct (remember_last e self) as [older ->].
  rewrite rev_app_distr. reflexivity.
Qed.

Lemma remember_Forall (P : Entry -> Prop) (e : Entry) (self : EmotionDetector) :
  P e -> Forall P (emotion_history self) ->
  Forall P (emotion_history (remember e self)).
Proof.
  intros He Hh. unfold remember, pop0. simpl.
  assert (Hall : Forall P (emotion_history self ++ [e]))
    by (apply Forall_app; split; [exact Hh | now constructor]).
  destruct (30 <? List.length (emotion_history self ++ [e]))%nat; [| exact Hall].
  destruct (emotion_history self ++ [e]) as [| x l]; [constructor |].
  now inversion Hall.
Qed.

Section Runs.
Variable Frame : Type.
Variable cvtColor : Frame -> outcome Frame.
Variable analyze : Frame -> outcome AnalyzeResult.

Lemma observation_color (frame : Frame) (e : Entry) :
  observation Frame cvtColor analyze frame = Some e ->
  color e = get_color_for_emotion (emotion e).
Proof.
  unfold observation, detect_emotion, try_detect.
  destruct (cvtColor frame) as [rgb | err]; simpl; [| discriminate].
  destruct (analyze rgb) as [res | err]; simpl; [| discriminate].
  destruct res as [r | [| r rs]]; simpl; try discriminate;
    intros [= <-]; reflexivity.
Qed.

(** Every entry [detect_emotion] ever puts into the history of a new
    detector carries the table colour of its own label, whatever the
    classifier returns and however many entries were evicted. *)
Theorem history_colors_consistent (frames : list Frame) :
  Forall (fun e => color e = get_color_for_emotion (emotion e))
    (emotion_history (detect_all Frame cvtColor analyze frames init)).
Proof.
  assert (H : forall self,
             Forall (fun e => color e = get_color_for_emotion (emotion e))
               (emotion_history self) ->
             Forall (fun e => color e = get_color_for_emotion (emotion e))
               (emotion_history (detect_all Frame cvtColor analyze frames self))).
  { unfold detect_all.
    induction frames as [| frame frames IH]; intros self Hs; cbn [fold_left];
      [exact Hs |].
    apply IH. rewrite (detect_emotion_step Frame cvtColor analyze frame self).
    destruct (observation Frame cvtColor analyze frame) as [e |] eqn:E;
      [| exact Hs].
    apply remember_Forall; [exact (observation_color frame e E) | exact Hs]. }
  apply H. constructor.
Qed.

(** On a detector that started new, [last_emotion] is always the label of
    the newest history entry, and is [None] exactly while the history is
    empty; failed calls change neither. *)
Theorem last_emotion_is_newest (frames : list Frame) :
  let self := detect_all Frame cvtColor analyze frames init in
  last_emotion self = option_map emotion (hd_error (rev (emotion_history self))) /\
  (last_emotion self = None <-> emotion_history self = []).
Proof.
  assert (H : forall self,
             last_emotion self
             = option_map emotion (hd_error (rev (emotion_history self))) ->
             last_emotion (detect_all Frame cvtColor analyze frames self)
             = option_map emotion
                 (hd_error
                    (rev (emotion_history
                            (detect_all Frame cvtColor analyze frames self))))).
  { unfold detect_all.
    induction frames as [| frame frames IH]; intros self Hs; cbn [fold_left];
      [exact Hs |].
    apply IH. rewrite (detect_emotion_step Frame cvtColor analyze frame self).
    destruct (observation Frame cvtColor analyze frame) as [e |]; [| exact Hs].
    rewrite remember_newest. reflexivity. }
  intros self. assert (Hinv := H init eq_refl). fold self in Hinv.
  split; [exact Hinv |].
  rewrite Hinv. destruct (emotion_history self) as [| x l] eqn:E.
  - simpl. tauto.
  - split; [| discriminate].
    destruct (rev (x :: l)) as [| y l'] eqn:R; [| discriminate].
    apply (f_equal (@List.length Entry)) in R.
    rewrite length_rev in R. discriminate.
Qed.

End Runs.

(** *** Averaging *)

Lemma skipn_min {A : Type} (k : nat) (l : list A) :
  skipn (Nat.min k (List.length l)) l = skipn k l.
Proof.
  destruct (Nat.le_ge_cases k (List.length l)) as [H | H].
  - now rewrite Nat.min_l.
  - rewrite Nat.min_r by exact H.
    rewrite skipn_all. symmetry. now apply skipn_all2.
Qed.

Lemma py_slice_positive {A : Type} (k : Z) (l : list A) :
  0 <= k -> py_slice_from k l = skipn (Z.to_nat k) l.
Proof.
  intros Hk. unfold py_slice_from.
  destruct (k <? 0) eqn:E; [apply Z.ltb_lt in E; lia |].
  rewrite <- (skipn_min (Z.to_nat k) l). f_equal. lia.
Qed.

(** A negative window does not fail: [history[-w:]] then drops the first
    [-w] observations and the rest is averaged; when that leaves nothing,
    the answer is the label "neutral" with no scores and the neutral
    colour, not [None]. *)
Theorem get_average_emotion_negative_window (w : Z) (self : EmotionDetector) :
  w < 0 ->
  emotion_history self <> [] ->
  get_average_emotion w self =
    Some (average_over (skipn (Z.to_nat (- w)) (emotion_history self))) /\
  ((List.length (emotion_history self) <= Z.to_nat (- w))%nat ->
   get_average_emotion w self =
     Some {| avg_emotion := "neutral";
             avg_scores := [];
             avg_color := (200, 200, 200) |}).
Proof.
  intros Hw Hne.
  assert (E : get_average_emotion w self =
              Some (average_over (skipn (Z.to_nat (- w)) (emotion_history self)))).
  { rewrite (get_average_emotion_some w self Hne).
    rewrite py_slice_positive by lia. reflexivity. }
  split; [exact E |].
  intros Hlen. rewrite E, (skipn_all2 _ Hlen). reflexivity.
Qed.

Lemma get_average_emotion_negative_window_witness :
  let self :=
    record_all
      [ mkEntry "sad" [("sad"%string, 90%Q)] (100, 150, 255);
        mkEntry "happy" [("happy"%string, 80%Q)] (255, 200, 0) ]
      init in
  option_map avg_emotion (get_average_emotion (-1) self) = Some "happy"%string /\
  option_map avg_emotion (get_average_emotion (-2) self) = Some "neutral"%string.
Proof.
  intros self.
  destruct (get_average_emotion_negative_window (-1) self) as [H1 _];
    [lia | discriminate |].
  destruct (get_average_emotion_negative_window (-2) self) as [_ H2];
    [lia | discriminate |].
  rewrite H1, H2; [split; reflexivity | simpl; lia].
Defined.

Lemma score_of_percent (k : string) (e : Entry) :
  Forall (fun item => 0 <= snd item /\ snd item <= 100)%Q (scores e) ->
  (0 <= score_of k e)%Q /\ (score_of k e <= 100)%Q.
Proof.
  unfold score_of. induction (scores e) as [| [k' v] d IH]; intros H.
  - rewrite dict_get_or_nil. split; lra.
  - inversion H as [| ? ? Hv Hd]; subst. rewrite dict_get_or_cons.
    destruct (String.eqb k' k); [exact Hv | now apply IH].
Qed.

Lemma total_of_percent (k : string) (recent : list Entry) :
  Forall (fun e =>
            Forall (fun item => 0 <= snd item /\ snd item <= 100)%Q (scores e))
    recent ->
  (0 <= total_of k recent)%Q /\
  (total_of k recent <= 100 * of_int (Z.of_nat (List.length recent)))%Q.
Proof.
  induction recent as [| e recent IH]; intros H.
  - simpl. split; [lra | vm_compute; discriminate].
  - inversion H as [| ? ? He Hr]; subst.
    destruct (IH Hr) as [IH0 IH1].
    destruct (score_of_percent k e He) as [Hs0 Hs1].
    cbn [total_of fold_right List.length]. fold (total_of k recent).
    rewrite Nat2Z.inj_succ. unfold Z.succ, of_int in *.
    rewrite inject_Z_plus. change (inject_Z 1) with 1%Q.
    split; lra.
Qed.

Lemma average_over_percent (recent : list Entry) (k : string) :
  Forall (fun e =>
            wf_dict (scores e) /\
            Forall (fun item => 0 <= snd item /\ snd item <= 100)%Q (scores e))
    recent ->
  (0 <= dict_get_or (avg_scores (average_over recent)) k 0)%Q /\
  (dict_get_or (avg_scores (average_over recent)) k 0 <= 100)%Q.
Proof.
  intros H.
  assert (Hwf : Forall wf_entry recent).
  { eapply Forall_impl; [| exact H]. intros e [Hd Hp]. split; [exact Hd |].
    unfold nonneg_dict. eapply Forall_impl; [| exact Hp]. intros it [H0 _]. exact H0. }
  assert (Hp : Forall (fun e =>
                         Forall (fun item => 0 <= snd item /\ snd item <= 100)%Q
                           (scores e)) recent).
  { eapply Forall_impl; [| exact H]. intros e [_ Hp]. exact Hp. }
  rewrite (average_over_get recent k Hwf).
  destruct (total_of_percent k recent Hp) as [H0 H1].
  destruct recent as [| e0 rest].
  - simpl. split; vm_compute; discriminate.
  - set (n := of_int (Z.of_nat (List.length (e0 :: rest)))) in *.
    assert (Hn : (0 < n)%Q).
    { unfold n, of_int. rewrite <- (Zlt_Qlt 0). simpl. lia. }
    split.
    + apply Qle_shift_div_l; [exact Hn | lra].
    + apply Qle_shift_div_r; [exact Hn | exact H1].
Qed.

Lemma Forall_py_slice {A : Type} (P : A -> Prop) (start : Z) (l : list A) :
  Forall P l -> Forall P (py_slice_from start l).
Proof.
  intros H. unfold py_slice_from.
  set (k := Z.to_nat _).
  rewrite <- (firstn_skipn k l) in H. now apply Forall_app in H.
Qed.

(** Averages of percentages are percentages: when every recorded score is
    in [0, 100], every score [get_average_emotion] returns is in [0, 100],
    for any window. *)
Theorem average_scores_are_percentages (w : Z) (self : EmotionDetector)
    (r : Average) :
  Forall (fun e =>
            wf_dict (scores e) /\
            Forall (fun item => 0 <= snd item /\ snd item <= 100)%Q (scores e))
    (emotion_history self) ->
  get_average_emotion w self = Some r ->
  forall k,
    (0 <= dict_get_or (avg_scores r) k 0)%Q /\
    (dict_get_or (avg_scores r) k 0 <= 100)%Q.
Proof.
  intros H Hr k. unfold get_average_emotion in Hr.
  destruct (emotion_history self) as [| e0 h] eqn:E; [discriminate |].
  injection Hr as <-. apply average_over_percent.
  now apply Forall_py_slice.
Qed.

Lemma average_scores_are_percentages_witness :
  let self :=
    record_all
      [ mkEntry "sad" [("sad"%string, 100%Q)] (100, 150, 255);
        mkEntry "happy" [("happy"%string, 99%Q); ("sad"%string, 1%Q)] (255, 200, 0) ]
      init in
  (dict_get_or (avg_scores (average_over (emotion_history self))) "sad" 0 <= 100)%Q.
Proof.
  intros self.
  apply (average_scores_are_percentages 2 self
           (average_over (emotion_history self))).
  - repeat constructor; simpl; try (intros H; intuition discriminate);
      try (vm_compute; discriminate).
  - reflexivity.
Defined.

(** [max] keeps the first of the items with the largest key. *)
Lemma py_max_by_first {A : Type} (key : A -> Q) (rest : list A) :
  forall best : A,
    exists pre post,
      best :: rest = pre ++ py_max_by key best rest :: post /\
      (forall y, In y pre -> (key y < key (py_max_by key best rest))%Q) /\
      (forall y, In y post -> (key y <= key (py_max_by key best rest))%Q).
Proof.
  induction rest as [| x rest IH]; intros best.
  - exists [], []. simpl. repeat split; intros y [].
  - cbn [py_max_by].
    destruct (Qltb (key best) (key x)) eqn:E.
    + apply Qltb_lt in E.
      destruct (IH x) as (pre & post & Heq & Hpre & Hpost).
      destruct (py_max_by_spec key rest x) as [_ Hmax].
      exists (best :: pre), post. split; [simpl; now rewrite Heq |].
      split; [| exact Hpost].
      intros y [<- | Hy]; [| now apply Hpre].
      apply Qlt_le_trans with (key x); [exact E | apply Hmax; now left].
    + apply Qltb_ge in E.
      destruct (IH best) as (pre & post & Heq & Hpre & Hpost).
      destruct pre as [| p pre].
      * simpl in Heq. injection Heq as Hm Hrest.
        exists [], (x :: post). rewrite <- Hm at 1. simpl.
        split; [now rewrite Hrest |].
        split; [intros y [] |].
        intros y [<- | Hy]; [| now apply Hpost].
        apply Qle_trans with (key best); [exact E |].
        rewrite <- Hm. apply Qle_refl.
      * simpl in Heq. injection Heq as Hp Hrest. subst p.
        exists (best :: x :: pre), post.
        split; [simpl; do 2 f_equal; exact Hrest |].
        split; [| exact Hpost].
        intros y [<- | [<- | Hy]].
        -- apply Hpre. now left.
        -- apply Qle_lt_trans with (key best); [exact E | apply Hpre; now left].
        -- apply Hpre. now right.
Qed.

(** Ties go to the key seen first: the label [get_average_emotion] returns
    is the first key, in the order the keys first appeared in the window,
    whose average is the largest; every earlier key has a strictly smaller
    average and no later key a larger one. *)
Theorem dominant_is_first_maximum (w : Z) (self : EmotionDetector)
    (r : Average) :
  get_average_emotion w self = Some r ->
  avg_scores r <> [] ->
  exists pre v post,
    avg_scores r = pre ++ (avg_emotion r, v) :: post /\
    (forall y, In y pre -> (snd y < v)%Q) /\
    (forall y, In y post -> (snd y <= v)%Q).
Proof.
  intros Hr Hne. unfold get_average_emotion in Hr.
  destruct (emotion_history self) as [| e0 h]; [discriminate |].
  injection Hr as <-.
  set (a := average_over _) in *.
  assert (Hdom : avg_emotion a = dominant_of (avg_scores a)) by reflexivity.
  rewrite Hdom. clear Hdom.
  destruct (avg_scores a) as [| first rest]; [congruence |].
  destruct (py_max_by_first snd rest first) as (pre & post & Heq & Hpre & Hpost).
  exists pre, (snd (py_max_by snd first rest)), post.
  unfold dominant_of. rewrite <- surjective_pairing. auto.
Qed.

Lemma dominant_is_first_maximum_witness :
  let r :=
    average_over
      [ mkEntry "sad" [("sad"%string, 50%Q); ("happy"%string, 50%Q)]
          (100, 150, 255) ] in
  avg_emotion r = "sad"%string /\
  exists pre v post,
    avg_scores r = pre ++ (avg_emotion r, v) :: post /\
    (forall y, In y pre -> (snd y < v)%Q) /\
    (forall y, In y post -> (snd y <= v)%Q).
Proof.
  intros r. split; [reflexivity |].
  apply (dominant_is_first_maximum 5
           (record_all
              [ mkEntry "sad" [("sad"%string, 50%Q); ("happy"%string, 50%Q)]
                  (100, 150, 255) ] init) r).
  - reflexivity.
  - discriminate.
Defined.

Lemma sum_scores_nil (recent : list Entry) :
  sum_scores recent = [] <-> Forall (fun e => scores e = []) recent.
Proof.
  split.
  - intros H. apply Forall_forall. intros e He.
    destruct (scores e) as [| [k v] d] eqn:Es; [reflexivity | exfalso].
    assert (Hk : In k (keys (sum_scores recent))).
    { unfold sum_scores. apply fold_add_scores_keys. right.
      exists e. split; [exact He |]. rewrite Es. now left. }
    rewrite H in Hk. exact Hk.
  - intros H. destruct (sum_scores recent) as [| [k v] d] eqn:Es; [reflexivity |].
    exfalso.
    assert (Hk : In k (keys (sum_scores recent))) by (rewrite Es; now left).
    unfold sum_scores in Hk. apply fold_add_scores_keys in Hk.
    destruct Hk as [[] | [e [He Hin]]].
    rewrite Forall_forall in H. rewrite (H e He) in Hin. exact Hin.
Qed.

(** The colour [get_average_emotion] returns is always the table colour of
    the label it returns, hence in [0, 255]; and the result has no scores
    exactly when no observation of the window has any, in which case the
    label is "neutral" and the colour (200,200,200). *)
Theorem average_label_and_color (w : Z) (self : EmotionDetector) (r : Average) :
  get_average_emotion w self = Some r ->
  avg_color r = get_color_for_emotion (avg_emotion r) /\
  Lighting.color_in_range (avg_color r) /\
  (avg_scores r = [] <->
   Forall (fun e => scores e = [])
     (py_slice_from (- w) (emotion_history self))) /\
  (avg_scores r = [] ->
   avg_emotion r = "neutral"%string /\ avg_color r = (200, 200, 200)).
Proof.
  intros Hr. unfold get_average_emotion in Hr.
  destruct (emotion_history self) as [| e0 h]; [discriminate |].
  injection Hr as <-.
  set (recent := py_slice_from (- w) (e0 :: h)).
  assert (Hcol : avg_color (average_over recent)
                 = get_color_for_emotion (avg_emotion (average_over recent)))
    by reflexivity.
  split; [exact Hcol |].
  split; [rewrite Hcol; apply get_color_for_emotion_in_range |].
  split.
  - rewrite <- sum_scores_nil. split; intros H.
    + apply (f_equal keys) in H. rewrite average_over_keys in H.
      destruct (sum_scores recent); [reflexivity | discriminate].
    + assert (Hk : keys (avg_scores (average_over recent)) = [])
        by (rewrite average_over_keys, H; reflexivity).
      destruct (avg_scores (average_over recent)); [reflexivity | discriminate].
  - intros H.
    assert (Hdom : avg_emotion (average_over recent)
                   = dominant_of (avg_scores (average_over recent)))
      by reflexivity.
    rewrite Hcol, Hdom, H. split; reflexivity.
Qed.

Lemma average_label_and_color_witness :
  let self := record_all [mkEntry "happy" [] (255, 200, 0)] init in
  option_map avg_emotion (get_average_emotion 10 self) = Some "neutral"%string /\
  option_map avg_color (get_average_emotion 10 self) = Some (200, 200, 200).
Proof.
  intros self.
  destruct (average_label_and_color 10 self (average_over (emotion_history self)))
    as (_ & _ & _ & Hnil); [reflexivity |].
  destruct (Hnil eq_refl) as [Hl Hc].
  change (get_average_emotion 10 self)
    with (Some (average_over (emotion_history self))).
  cbn [option_map]. rewrite Hl, Hc. split; reflexivity.
Defined.

End DetectorExtra.

(** ** The application *)

Module AppExtra.
Import App.

(** *** Hexadecimal colours *)

Lemma string_length_append (s t : string) :
  String.length (s ++ t) = (String.length s + String.length t)%nat.
Proof. induction s as [| c s IH]; simpl; [reflexivity | now rewrite IH]. Qed.

Lemma string_length_two (s : string) :
  String.length s = 2%nat -> exists c1 c2, s = String c1 (String c2 "").
Proof.
  destruct s as [| c1 [| c2 [| c3 s]]]; simpl; intros H; try discriminate.
  now exists c1, c2.
Qed.

(** Checked on each of the 256 values: two digits, which read back as the
    number. *)
Lemma format_02x_byte (n : Z) :
  0 <= n <= 255 ->
  String.length (format_02x n) = 2%nat /\
  HexString.Raw.to_N (format_02x n) 0%N = Z.to_N n.
Proof.
  intros Hn.
  assert (Hall :
    forallb
      (fun k =>
         let m := Z.of_nat k in
         Nat.eqb (String.length (format_02x m)) 2
         && N.eqb (HexString.Raw.to_N (format_02x m) 0%N) (Z.to_N m))
      (seq 0 256) = true) by (vm_compute; reflexivity).
  rewrite forallb_forall in Hall.
  specialize (Hall (Z.to_nat n)).
  rewrite Z2Nat.id in Hall by lia.
  assert (Hin : In (Z.to_nat n) (seq 0 256)) by (apply in_seq; lia).
  apply Hall in Hin. cbv zeta in Hin.
  apply andb_true_iff in Hin. destruct Hin as [Hl Hv].
  apply Nat.eqb_eq in Hl. apply N.eqb_eq in Hv. auto.
Qed.

(** For a colour with channels in [0, 255], [rgb_to_hex] gives a string of
    exactly 7 characters starting with "#", and different colours give
    different strings. *)
Theorem rgb_to_hex_in_range :
  (forall c : Lighting.Color,
     Lighting.color_in_range c ->
     String.length (rgb_to_hex c) = 7%nat /\
     exists digits, rgb_to_hex c = String "#" digits) /\
  (forall c d : Lighting.Color,
     Lighting.color_in_range c -> Lighting.color_in_range d ->
     rgb_to_hex c = rgb_to_hex d -> c = d).
Proof.
  split.
  - intros [[r g] b] Hc.
    pose proof (Hc Lighting.Red) as Hr. pose proof (Hc Lighting.Green) as Hg.
    pose proof (Hc Lighting.Blue) as Hb.
    unfold Lighting.in_range in *. simpl in Hr, Hg, Hb.
    destruct (format_02x_byte r Hr) as [Lr _].
    destruct (format_02x_byte g Hg) as [Lg _].
    destruct (format_02x_byte b Hb) as [Lb _].
    unfold rgb_to_hex. split; [| eexists; reflexivity].
    simpl. rewrite !string_length_append, Lr, Lg, Lb. reflexivity.
  - intros [[r g] b] [[r' g'] b'] Hc Hd Heq.
    pose proof (Hc Lighting.Red) as Hr. pose proof (Hc Lighting.Green) as Hg.
    pose proof (Hc Lighting.Blue) as Hb.
    pose proof (Hd Lighting.Red) as Hr'. pose proof (Hd Lighting.Green) as Hg'.
    pose proof (Hd Lighting.Blue) as Hb'.
    unfold Lighting.in_range in *. simpl in Hr, Hg, Hb, Hr', Hg', Hb'.
    destruct (format_02x_byte r Hr) as [Lr Vr].
    destruct (format_02x_byte g Hg) as [Lg Vg].
    destruct (format_02x_byte b Hb) as [Lb Vb].
    destruct (format_02x_byte r' Hr') as [Lr' Vr'].
    destruct (format_02x_byte g' Hg') as [Lg' Vg'].
    destruct (format_02x_byte b' Hb') as [Lb' Vb'].
    unfold rgb_to_hex in Heq.
    destruct (string_length_two _ Lr) as (x1 & x2 & Er).
    destruct (string_length_two _ Lg) as (x3 & x4 & Eg).
    destruct (string_length_two _ Lb) as (x5 & x6 & Eb).
    destruct (string_length_two _ Lr') as (y1 & y2 & Er').
    destruct (string_length_two _ Lg') as (y3 & y4 & Eg').
    destruct (string_length_two _ Lb') as (y5 & y6 & Eb').
    rewrite Er, Eg, Eb, Er', Eg', Eb' in Heq. simpl in Heq.
    injection Heq as -> -> -> -> -> ->.
    rewrite <- Er' in Er. rewrite <- Eg' in Eg. rewrite <- Eb' in Eb.
    rewrite Er, Vr' in Vr. rewrite Eg, Vg' in Vg. rewrite Eb, Vb' in Vb.
    f_equal; [f_equal |]; lia.
Qed.

Lemma rgb_to_hex_in_range_witness :
  String.length (rgb_to_hex (255, 200, 0)) = 7%nat.
Proof.
  destruct rgb_to_hex_in_range as [H _].
  apply (H (255, 200, 0)).
  intros []; simpl; unfold Lighting.in_range; lia.
Defined.

(** What the application displays is a well-formed colour as long as the
    controller's colour is in range: with [current_color] in [0, 255] and
    the brightness in [0, 1], on or off, the hexadecimal form of
    [get_current_color] has exactly 7 characters. *)
Theorem displayed_color_well_formed (self : Lighting.LightingController) :
  Lighting.color_in_range (Lighting.current_color self) ->
  (0 <= Lighting.brightness self)%Q -> (Lighting.brightness self <= 1)%Q ->
  String.length (rgb_to_hex (Lighting.get_current_color self)) = 7%nat.
Proof.
  intros Hc Hb0 Hb1.
  assert (Hout : forall i,
             0 <= Lighting.chan i (Lighting.get_current_color self) <= 255).
  { intros i.
    pose proof (LightingExtra.get_current_color_bounds self i Hc Hb0 Hb1).
    pose proof (Hc i) as Hi. unfold Lighting.in_range in Hi. lia. }
  destruct (Lighting.get_current_color self) as [[r g] b].
  pose proof (Hout Lighting.Red) as Hr. pose proof (Hout Lighting.Green) as Hg.
  pose proof (Hout Lighting.Blue) as Hb. simpl in Hr, Hg, Hb.
  destruct (format_02x_byte r Hr) as [Lr _].
  destruct (format_02x_byte g Hg) as [Lg _].
  destruct (format_02x_byte b Hb) as [Lb _].
  unfold rgb_to_hex. simpl.
  rewrite !string_length_append, Lr, Lg, Lb. reflexivity.
Qed.

Lemma displayed_color_well_formed_witness :
  String.length
    (rgb_to_hex (Lighting.get_current_color (Lighting.turn_on "" (Lighting.init 0))))
  = 7%nat.
Proof.
  apply (displayed_color_well_formed (Lighting.turn_on "" (Lighting.init 0))).
  - intros []; simpl; unfold Lighting.in_range; lia.
  - vm_compute; discriminate.
  - vm_compute; discriminate.
Defined.

(** *** One camera frame *)

Section Frames.
Variable Frame : Type.
Variable cvtColor : Frame -> Detector.outcome Frame.
Variable analyze : Frame -> Detector.outcome Detector.AnalyzeResult.

(** After a call that detected a face the comparison of the result's label
    with [last_emotion] finds them equal. *)
Lemma differs_after_detect (frame : Frame) (detector : Detector.EmotionDetector) :
  Detector.r_face_detected (snd (Detector.detect_emotion Frame cvtColor analyze frame detector)) = true ->
  differs (Detector.r_emotion (snd (Detector.detect_emotion Frame cvtColor analyze frame detector)))
          (Detector.last_emotion (fst (Detector.detect_emotion Frame cvtColor analyze frame detector))) = false.
Proof.
  unfold Detector.detect_emotion, Detector.try_detect.
  destruct (cvtColor frame) as [rgb | e]; simpl; [| discriminate].
  destruct (analyze rgb) as [res | e]; simpl; [| discriminate].
  destruct res as [r | [| r rs]]; simpl; try discriminate;
    intros _; now rewrite String.eqb_refl.
Qed.

(** What [process_frame] does, with the branch that never runs removed. *)
Lemma process_frame_cases (calibration : bool) (now : Q) (stamp : string)
    (frame : Frame) (detector : Detector.EmotionDetector)
    (controller : Lighting.LightingController) :
  process_frame Frame cvtColor analyze calibration now stamp frame detector
    controller =
  if Detector.r_face_detected (snd (Detector.detect_emotion Frame cvtColor analyze frame detector)) then
    let controller' :=
      Lighting.update now
        (if negb calibration
         then Lighting.set_emotion_color
                (Detector.r_color (snd (Detector.detect_emotion Frame cvtColor analyze frame detector))) true controller
         else controller) in
    (fst (Detector.detect_emotion Frame cvtColor analyze frame detector), controller',
     Some (Lighting.get_current_color controller'))
  else (fst (Detector.detect_emotion Frame cvtColor analyze frame detector), controller, None).
Proof.
  unfold process_frame.
  pose proof (differs_after_detect frame detector) as Hd.
  destruct (Detector.detect_emotion Frame cvtColor analyze frame detector) as [detector' result]. simpl in *.
  destruct (Detector.r_face_detected result); [| reflexivity].
  now rewrite Hd.
Qed.

(** Handling a camera frame never writes to the session log: the
    "emotion_change" event is logged only when the result's label differs
    from [last_emotion], which [detect_emotion] has just set to that
    label. *)
Theorem process_frame_never_logs (calibration : bool) (now : Q)
    (stamp : string) (frame : Frame) (detector : Detector.EmotionDetector)
    (controller : Lighting.LightingController) :
  Lighting.session_log
    (snd (fst (process_frame Frame cvtColor analyze calibration now stamp frame detector
    controller)))
  = Lighting.session_log controller.
Proof.
  rewrite process_frame_cases.
  destruct (Detector.r_face_detected (snd (Detector.detect_emotion Frame cvtColor analyze frame detector)));
    [| reflexivity].
  cbv zeta. simpl. now destruct calibration.
Qed.

Lemma process_frame_fails (calibration : bool) (now : Q) (stamp : string)
    (frame : Frame) (detector : Detector.EmotionDetector)
    (controller : Lighting.LightingController) (e : string) :
  Detector.classification_fails Frame cvtColor analyze frame e ->
  process_frame Frame cvtColor analyze calibration now stamp frame detector
    controller
  = (detector, controller, None).
Proof.
  intros Hfail. unfold process_frame, Detector.detect_emotion.
  now rewrite (DetectorFacts.try_detect_fails Frame cvtColor analyze
                 frame detector e Hfail).
Qed.

(** A frame on which the classification fails leaves everything as it was:
    the detector, and the whole controller, which is not even updated, so
    its [last_update] stays behind and the next update sees all the time
    elapsed since the last detected face; no light colour is shown. *)
Theorem process_frame_no_face (calibration : bool) (now : Q) (stamp : string)
    (frame : Frame) (detector : Detector.EmotionDetector)
    (controller : Lighting.LightingController) (e : string) :
  Detector.classification_fails Frame cvtColor analyze frame e ->
  let out :=
    process_frame Frame cvtColor analyze calibration now stamp frame detector
      controller in
  out = (detector, controller, None) /\
  Lighting.last_update (snd (fst out)) = Lighting.last_update controller.
Proof.
  intros Hfail. cbv zeta.
  rewrite (process_frame_fails calibration now stamp frame detector controller
             e Hfail).
  split; reflexivity.
Qed.

End Frames.

Lemma process_frame_no_face_witness :
  process_frame unit Detector.Returns (fun _ => Detector.Raises "no face")
    false 9 "12:00" tt Detector.init (Lighting.init 0)
  = (Detector.init, Lighting.init 0, None).
Proof.
  destruct (process_frame_no_face unit Detector.Returns
              (fun _ => Detector.Raises "no face") false 9 "12:00" tt
              Detector.init (Lighting.init 0) "no face") as [H _].
  - right. exists tt. split; [reflexivity | left; reflexivity].
  - exact H.
Defined.

(** *** Runs of [main] *)

Section Reruns.
Variable Frame : Type.
Variable cvtColor : Frame -> Detector.outcome Frame.
Variable analyze : Frame -> Detector.outcome Detector.AnalyzeResult.

(** A camera frame touches neither the switch, the brightness nor the
    log. *)
Lemma process_frame_frame (calibration : bool) (now : Q) (stamp : string)
    (frame : Frame) (detector : Detector.EmotionDetector)
    (controller : Lighting.LightingController) :
  let controller' :=
    snd (fst (process_frame Frame cvtColor analyze calibration now stamp frame
                detector controller)) in
  Lighting.brightness controller' = Lighting.brightness controller /\
  Lighting.is_on controller' = Lighting.is_on controller /\
  Lighting.session_log controller' = Lighting.session_log controller.
Proof.
  cbv zeta. rewrite process_frame_cases.
  destruct (Detector.r_face_detected
              (snd (Detector.detect_emotion Frame cvtColor analyze frame detector)));
    [| auto].
  cbv zeta. simpl. destruct calibration; auto.
Qed.

(** The controller a run of [main] leaves, up to the camera frame: the
    switch and log effects of the buttons and the slider. *)
Lemma main_controller (inp : Inputs Frame) (st : SessionState) :
  let c0 := lighting_controller st in
  let c1 := if turn_on_clicked Frame inp
            then Lighting.turn_on (stamp Frame inp) c0 else c0 in
  let c2 := if turn_off_clicked Frame inp
            then Lighting.turn_off (stamp Frame inp) c1 else c1 in
  let c3 := Lighting.set_brightness (slider_brightness Frame inp) c2 in
  let c4 := if clear_log_clicked Frame inp then Lighting.clear_log c3 else c3 in
  let c5 := lighting_controller (main Frame cvtColor analyze inp st) in
  Lighting.brightness c5 = Lighting.brightness c4 /\
  Lighting.is_on c5 = Lighting.is_on c4 /\
  Lighting.session_log c5 = Lighting.session_log c4.
Proof.
  cbv zeta. unfold main.
  set (c4 := if clear_log_clicked Frame inp then _ else _).
  destruct (if camera_clicked Frame inp
            then negb (camera_active st) else camera_active st); [| simpl; auto].
  destruct (camera_input Frame inp) as [frame |]; [| simpl; auto].
  pose proof (process_frame_frame (calibration_checked Frame inp)
                (clock Frame inp) (stamp Frame inp) frame (emotion_detector st) c4)
    as H.
  cbv zeta in H.
  destruct (process_frame Frame cvtColor analyze (calibration_checked Frame inp)
              (clock Frame inp) (stamp Frame inp) frame (emotion_detector st) c4)
    as [[d c] shown].
  simpl in *. exact H.
Qed.

(** Every run of [main] stores the slider value clamped into [0, 1]
    (the value itself when the slider is in range), whatever else happens
    in the run. *)
Theorem main_sets_brightness (inp : Inputs Frame) (st : SessionState) :
  let b' :=
    Lighting.brightness (lighting_controller (main Frame cvtColor analyze inp st)) in
  ((0 <= b')%Q /\ (b' <= 1)%Q) /\
  ((0 <= slider_brightness Frame inp)%Q ->
   (slider_brightness Frame inp <= 1)%Q ->
   (b' == slider_brightness Frame inp)%Q).
Proof.
  cbv zeta. destruct (main_controller inp st) as [Hb _]. rewrite Hb.
  assert (E : forall c,
             Lighting.brightness
               (if clear_log_clicked Frame inp
                then Lighting.clear_log
                       (Lighting.set_brightness (slider_brightness Frame inp) c)
                else Lighting.set_brightness (slider_brightness Frame inp) c)
             = py_max 0 (py_min 1 (slider_brightness Frame inp)))
    by (intros c; destruct (clear_log_clicked Frame inp); reflexivity).
  rewrite E. split; [apply LightingExtra.clamp_bounds |].
  apply LightingExtra.clamp_id.
Qed.

(** The session log of the application only ever holds "lights_on" and
    "lights_off" entries, without emotion or colour: no run of [main],
    whatever the widgets, the frames and the classifier do, records an
    "emotion_change". *)
Theorem main_logs_only_switch_events (inps : list (Inputs Frame)) (now : Q) :
  Forall
    (fun e =>
       (Lighting.event e = "lights_on"%string \/
        Lighting.event e = "lights_off"%string) /\
       Lighting.emotion e = None /\ Lighting.color e = None)
    (Lighting.session_log
       (lighting_controller
          (mains Frame cvtColor analyze inps (initial_state now)))).
Proof.
  set (P := fun e : Lighting.LogEntry =>
              (Lighting.event e = "lights_on"%string \/
               Lighting.event e = "lights_off"%string) /\
              Lighting.emotion e = None /\ Lighting.color e = None).
  assert (Hstep : forall inp st,
             Forall P (Lighting.session_log (lighting_controller st)) ->
             Forall P (Lighting.session_log
                         (lighting_controller (main Frame cvtColor analyze inp st)))).
  { intros inp st Hst. destruct (main_controller inp st) as (_ & _ & Hlog).
    rewrite Hlog.
    destruct (clear_log_clicked Frame inp); [constructor |].
    simpl.
    destruct (turn_on_clicked Frame inp), (turn_off_clicked Frame inp); simpl;
      repeat (apply Forall_app; split);
      try exact Hst;
      (constructor; [unfold P; simpl; auto | constructor]). }
  assert (Hall : forall st,
             Forall P (Lighting.session_log (lighting_controller st)) ->
             Forall P (Lighting.session_log
                         (lighting_controller
                            (mains Frame cvtColor analyze inps st)))).
  { unfold mains. induction inps as [| inp inps IH]; intros st Hst; simpl;
      [exact Hst | apply IH, Hstep, Hst]. }
  apply Hall. constructor.
Qed.

(** A run of [main] changes the colour state of the controller (current
    colour, target, time of the last update) and the detector only if the
    camera is active, a frame was taken and the classification succeeded;
    otherwise the colour does not move, whatever time has passed. *)
Theorem main_idle (inp : Inputs Frame) (st : SessionState) :
  ((if camera_clicked Frame inp
    then negb (camera_active st) else camera_active st) = false \/
   camera_input Frame inp = None \/
   exists frame e,
     camera_input Frame inp = Some frame /\
     Detector.classification_fails Frame cvtColor analyze frame e) ->
  let st' := main Frame cvtColor analyze inp st in
  emotion_detector st' = emotion_detector st /\
  Lighting.current_color (lighting_controller st')
  = Lighting.current_color (lighting_controller st) /\
  Lighting.target_color (lighting_controller st')
  = Lighting.target_color (lighting_controller st) /\
  Lighting.last_update (lighting_controller st')
  = Lighting.last_update (lighting_controller st).
Proof.
  intros H. cbv zeta. unfold main.
  set (c4 := if clear_log_clicked Frame inp then _ else _).
  assert (Hc4 : Lighting.current_color c4
                = Lighting.current_color (lighting_controller st) /\
                Lighting.target_color c4
                = Lighting.target_color (lighting_controller st) /\
                Lighting.last_update c4
                = Lighting.last_update (lighting_controller st)).
  { unfold c4.
    destruct (clear_log_clicked Frame inp), (turn_on_clicked Frame inp),
      (turn_off_clicked Frame inp); simpl; auto. }
  destruct (if camera_clicked Frame inp
            then negb (camera_active st) else camera_active st) eqn:Eact;
    [| simpl; tauto].
  destruct H as [H | [H | (frame & e & Hin & Hfail)]]; [discriminate | |].
  - rewrite H. simpl. tauto.
  - rewrite Hin.
    rewrite (process_frame_fails Frame cvtColor analyze
               (calibration_checked Frame inp) (clock Frame inp)
               (stamp Frame inp) frame (emotion_detector st) c4 e Hfail).
    simpl. tauto.
Qed.

End Reruns.

Lemma main_sets_brightness_witness :
  let inp :=
    mkInputs unit true false (4 # 10) false false true (Some tt) 3 "12:00" in
  (Lighting.brightness
     (lighting_controller
        (main unit Detector.Returns (fun _ => Detector.Raises "no face")
           inp (initial_state 0)))
   == 4 # 10)%Q.
Proof.
  intros inp.
  apply (main_sets_brightness unit Detector.Returns
           (fun _ => Detector.Raises "no face") inp (initial_state 0));
    vm_compute; discriminate.
Defined.

Lemma main_idle_witness :
  let inp :=
    mkInputs unit true false (4 # 10) false false true (Some tt) 3 "12:00" in
  Lighting.last_update
    (lighting_controller
       (main unit Detector.Returns (fun _ => Detector.Raises "no face")
          inp (initial_state 0)))
  = 0%Q.
Proof.
  intros inp.
  apply (main_idle unit Detector.Returns (fun _ => Detector.Raises "no face")
           inp (initial_state 0)).
  right. right. exists tt, "no face"%string.
  split; [reflexivity |]. right. exists tt. split; [reflexivity | left; reflexivity].
Defined.

End AppExtra.

(** ** Rounding *)

Module FloatFacts.
Import Float.

(** What follows from the laws of a rounding. *)
Section Laws.
Variable rnd : Q -> Q.
Hypothesis Hrnd : Rounding rnd.

Lemma rnd_eq (x y : Q) : (x == y)%Q -> (rnd x == rnd y)%Q.
Proof. intros H. now apply (rnd_proper rnd Hrnd). Qed.

Lemma rnd_nonneg (x : Q) : (0 <= x)%Q -> (0 <= rnd x)%Q.
Proof.
  intros H. destruct (Qlt_le_dec 0 x) as [Hpos | Hle].
  - apply Qlt_le_weak. now apply (rnd_pos rnd Hrnd).
  - assert (E : (x == 0)%Q) by lra.
    rewrite (rnd_eq x 0 E), (rnd_zero rnd Hrnd). lra.
Qed.

Lemma rnd_byte_eq (x : Q) (z : Z) :
  0 <= z <= 255 -> (x == inject_Z z)%Q -> (rnd x == inject_Z z)%Q.
Proof.
  intros Hz E. rewrite (rnd_eq x _ E). now apply (rnd_byte rnd Hrnd).
Qed.

End Laws.

(** Exact arithmetic is a rounding. *)
Lemma exact_rounding : Rounding (fun x => x).
Proof.
  constructor.
  - intros x y H. exact H.
  - reflexivity.
  - intros x H. exact H.
  - intros z _. reflexivity.
Qed.

(** *** Rounding to 53 bits *)

Lemma round_half_even_ge_floor (x : Q) : Qfloor x <= round_half_even x.
Proof.
  unfold round_half_even.
  destruct (x - inject_Z (Qfloor x) ?= 1 # 2)%Q; try lia.
  destruct (Z.even (Qfloor x)); lia.
Qed.

Lemma two_power_pos (e : Z) : (0 < 2 ^ e)%Q.
Proof. apply Qpower_0_lt. reflexivity. Qed.

(** The bit lengths give a power of two below a positive rational. *)
Lemma log2_lower (n : Z) (d : positive) :
  0 < n ->
  (2 ^ (Z.log2 n - Z.log2 (Zpos d) - 1) <= n # d)%Q.
Proof.
  intros Hn.
  set (a := Z.log2 n). set (b := Z.log2 (Zpos d)).
  assert (Ha : 0 <= a) by apply Z.log2_nonneg.
  assert (Hb : 0 <= b) by apply Z.log2_nonneg.
  destruct (Z.log2_spec n Hn) as [Hn1 _]. fold a in Hn1.
  destruct (Z.log2_spec (Zpos d) (Pos2Z.is_pos d)) as [_ Hd2]. fold b in Hd2.
  replace (a - b - 1) with (a - (b + 1)) by lia.
  rewrite Qpower_minus by discriminate.
  change 2%Q with (inject_Z 2).
  rewrite <- !Zpower_Qpower by lia.
  assert (HB : 0 < 2 ^ (b + 1)) by (apply Z.pow_pos_nonneg; lia).
  apply Qle_shift_div_r.
  - rewrite <- (Zlt_Qlt 0). exact HB.
  - unfold Qle. simpl. rewrite Z.mul_1_r.
    replace (Z.succ b) with (b + 1) in Hd2 by lia.
    assert (0 < 2 ^ a) by (apply Z.pow_pos_nonneg; lia).
    nia.
Qed.

Lemma ilog2_lower (y : Q) : (0 < y)%Q -> (2 ^ ilog2 y <= y)%Q.
Proof.
  intros Hy. unfold ilog2.
  assert (Habs : (Qabs y == y)%Q) by (apply Qabs_pos; now apply Qlt_le_weak).
  destruct (Qle_bool _ (Qabs y)) eqn:E.
  - apply Qle_bool_iff in E. now rewrite Habs in E.
  - destruct y as [n d]. unfold Qlt in Hy. simpl in Hy.
    rewrite Z.mul_1_r in Hy. simpl Qnum. simpl Qden.
    rewrite (Z.abs_eq n) by lia. now apply log2_lower.
Qed.

Lemma round53_pos (x : Q) : (0 < x)%Q -> (0 < round53 x)%Q.
Proof.
  intros Hx. unfold round53.
  assert (Hy : (0 < Qred x)%Q) by now rewrite Qred_correct.
  set (y := Qred x) in *.
  destruct (Qnum y =? 0) eqn:E.
  - apply Z.eqb_eq in E. unfold Qlt in Hy. simpl in Hy. lia.
  - set (e := ilog2 y - 52).
    pose proof (two_power_pos e) as He.
    assert (Hs : (1 <= y / 2 ^ e)%Q).
    { apply Qle_shift_div_l; [exact He |]. rewrite Qmult_1_l.
      apply Qle_trans with (2 ^ ilog2 y)%Q; [| now apply ilog2_lower].
      unfold e. rewrite Qpower_minus by discriminate.
      apply Qle_shift_div_r; [apply two_power_pos |].
      pose proof (two_power_pos (ilog2 y)) as Hl.
      assert (H52 : (1 <= 2 ^ 52)%Q) by (vm_compute; discriminate).
      nra. }
    assert (Hm : 1 <= round_half_even (y / 2 ^ e)).
    { apply Z.le_trans with (Qfloor (y / 2 ^ e));
        [| apply round_half_even_ge_floor].
      rewrite <- (Qfloor_Z 1). now apply Qfloor_resp_le. }
    apply Qmult_lt_0_compat; [| exact He].
    rewrite <- (Zlt_Qlt 0). lia.
Qed.

Lemma round53_byte (z : Z) :
  0 <= z <= 255 -> (round53 (inject_Z z) == inject_Z z)%Q.
Proof.
  intros Hz.
  assert (Hall :
    forallb
      (fun k => Qeq_bool (round53 (inject_Z (Z.of_nat k))) (inject_Z (Z.of_nat k)))
      (seq 0 256) = true) by (vm_compute; reflexivity).
  rewrite forallb_forall in Hall.
  specialize (Hall (Z.to_nat z)). rewrite Z2Nat.id in Hall by lia.
  apply Qeq_bool_iff. apply Hall. apply in_seq. lia.
Qed.

(** Rounding to 53 bits is a rounding. *)
Lemma round53_rounding : Rounding round53.
Proof.
  constructor.
  - intros x y H. unfold round53. now rewrite (Qred_complete x y H).
  - reflexivity.
  - exact round53_pos.
  - exact round53_byte.
Qed.

End FloatFacts.

(** ** The lighting controller, with rounded arithmetic *)

Module RoundedLightingFacts.
Import Lighting Float FloatFacts.

(** *** Overshoot (C1, C2) *)

(** C1: the code breaks the claim.  In binary64, from the initial white
    with target (255,200,0) and 2.5 seconds elapsed, [update] computes the
    step 2.5 and stores (337, 200, -300): red has passed its target 255 and
    is farther from it (82) than before (55), blue has passed 0. *)
Theorem update_overshoots :
  let before := set_emotion_color (255, 200, 0) true (RoundedLighting.init round53 0) in
  let after := RoundedLighting.update round53 (5 # 2) before in
  (RoundedLighting.step_of round53 before (fsub round53 (5 # 2) (last_update before))
   == 5 # 2)%Q /\
  current_color after = (337, 200, -300) /\
  ~ between (chan Red (current_color before)) (chan Red (current_color after))
            (chan Red (target_color before)) /\
  Z.abs (chan Red (current_color before) - chan Red (target_color before))
  < Z.abs (chan Red (current_color after) - chan Red (target_color before)).
Proof.
  cbv zeta.
  assert (E : current_color
                (RoundedLighting.update round53 (5 # 2)
                   (set_emotion_color (255, 200, 0) true
                      (RoundedLighting.init round53 0)))
              = (337, 200, -300)) by (vm_compute; reflexivity).
  rewrite E. split; [vm_compute; reflexivity |]. split; [reflexivity |].
  simpl. unfold between. lia.
Qed.

(** C2: the code breaks the claim.  In binary64, from the initial white
    with target (255,200,0) and 2 seconds elapsed, [update] does not snap
    and stores (310, 200, -200): nothing clamps red and blue into
    [0, 255]. *)
Theorem update_leaves_range :
  let before := set_emotion_color (255, 200, 0) true (RoundedLighting.init round53 0) in
  let after := RoundedLighting.update round53 2 before in
  color_in_range (current_color before) /\
  color_in_range (target_color before) /\
  current_color after = (310, 200, -200) /\
  ~ in_range (chan Red (current_color after)) /\
  ~ in_range (chan Blue (current_color after)).
Proof.
  cbv zeta.
  assert (E : current_color
                (RoundedLighting.update round53 2
                   (set_emotion_color (255, 200, 0) true
                      (RoundedLighting.init round53 0)))
              = (310, 200, -200)) by (vm_compute; reflexivity).
  rewrite E.
  split; [intros []; simpl; unfold in_range; lia |].
  split; [intros []; simpl; unfold in_range; lia |].
  split; [reflexivity |].
  simpl. unfold in_range. lia.
Qed.

(** *** Brightness scaling (C3) *)

Section Scaling.
Variable rnd : Q -> Q.
Hypothesis Hrnd : Rounding rnd.

(** C3: with the lights off [get_current_color] returns (0,0,0), whatever
    the colour state; with the lights on, each channel of the output is
    the floor of the floating-point product of that channel of
    [current_color] (in 0..255) and the brightness (not negative),
    channel by channel. *)
Theorem get_current_color_floor (self : LightingController) :
  (is_on self = false ->
   RoundedLighting.get_current_color rnd self = (0, 0, 0)) /\
  (is_on self = true ->
   forall i,
     in_range (chan i (current_color self)) ->
     (0 <= brightness self)%Q ->
     chan i (RoundedLighting.get_current_color rnd self)
     = Qfloor (fmul rnd (inject_Z (chan i (current_color self)))
                 (brightness self))).
Proof.
  unfold RoundedLighting.get_current_color.
  split; intros Hon; rewrite Hon; simpl; [reflexivity |].
  intros i Hi Hb.
  assert (E : chan i
                (let '(r, g, b) := current_color self in
                 (py_int (fmul rnd (fl_of_int rnd r) (brightness self)),
                  py_int (fmul rnd (fl_of_int rnd g) (brightness self)),
                  py_int (fmul rnd (fl_of_int rnd b) (brightness self))))
              = py_int (fmul rnd (fl_of_int rnd (chan i (current_color self)))
                          (brightness self))).
  { destruct (current_color self) as [[r g] b]. destruct i; reflexivity. }
  rewrite E. clear E.
  set (c := chan i (current_color self)) in *.
  assert (Hc : (fl_of_int rnd c == inject_Z c)%Q)
    by (apply (rnd_byte rnd Hrnd); exact Hi).
  assert (Hp : (fmul rnd (fl_of_int rnd c) (brightness self)
                == fmul rnd (inject_Z c) (brightness self))%Q).
  { unfold fmul. apply (rnd_eq rnd Hrnd). now rewrite Hc. }
  rewrite (py_int_comp _ _ Hp).
  apply py_int_nonneg_floor. unfold fmul. apply (rnd_nonneg rnd Hrnd).
  apply Qmult_le_0_compat; [| exact Hb].
  unfold in_range in Hi. unfold Qle. simpl. lia.
Qed.

End Scaling.

Lemma get_current_color_floor_witness :
  RoundedLighting.get_current_color round53
    (turn_off "" (RoundedLighting.init round53 0)) = (0, 0, 0) /\
  chan Red
    (RoundedLighting.get_current_color round53
       (set_emotion_color (90, 170, 180) false
          (turn_on "" (RoundedLighting.init round53 0))))
  = 62.
Proof.
  split.
  - apply (get_current_color_floor round53 round53_rounding
             (turn_off "" (RoundedLighting.init round53 0))).
    reflexivity.
  - destruct (get_current_color_floor round53 round53_rounding
                (set_emotion_color (90, 170, 180) false
                   (turn_on "" (RoundedLighting.init round53 0)))) as [_ Hon].
    rewrite (Hon eq_refl Red).
    + vm_compute. reflexivity.
    + simpl. unfold in_range. lia.
    + vm_compute. discriminate.
Defined.

End RoundedLightingFacts.

(** ** Averaging, with rounded arithmetic *)

Module RoundedDetectorFacts.
Import Detector Float FloatFacts DetectorFacts.

Section Averaging.
Variable rnd : Q -> Q.
Hypothesis Hrnd : Rounding rnd.

(** The contribution of one observation to the running sum of key [k]. *)
Lemma add_items_get_fl (items : dict Q) :
  forall (acc : dict Q) (k : string),
    wf_dict items ->
    dict_get_or (fold_left (RoundedDetector.add_item rnd) items acc) k 0%Q =
    match dict_get items k with
    | Some v => fadd rnd (dict_get_or acc k 0%Q) v
    | None => dict_get_or acc k 0%Q
    end.
Proof.
  induction items as [| [k1 v1] items IH]; intros acc k Hwf; [reflexivity |].
  inversion Hwf as [| ? ? Hnot Hwf']; subst.
  cbn [fold_left]. rewrite (IH _ k Hwf').
  unfold RoundedDetector.add_item. cbn [fst snd dict_get].
  destruct (String.eqb k1 k) eqn:E.
  - apply String.eqb_eq in E. subst k1.
    rewrite (dict_get_none items k Hnot), dict_get_or_set_same. reflexivity.
  - assert (Hne : k1 <> k) by (intros ->; now rewrite String.eqb_refl in E).
    rewrite (dict_get_or_set_other acc k1 k _ 0%Q Hne). reflexivity.
Qed.

Lemma fold_add_scores_get_fl (recent : list Entry) :
  forall (acc : dict Q) (k : string),
    Forall wf_entry recent ->
    dict_get_or (fold_left (RoundedDetector.add_scores rnd) recent acc) k 0%Q =
    fold_left
      (fun a e =>
         match dict_get (scores e) k with
         | Some v => fadd rnd a v
         | None => a
         end)
      recent (dict_get_or acc k 0%Q).
Proof.
  induction recent as [| e recent IH]; intros acc k Hwf; [reflexivity |].
  inversion Hwf as [| ? ? [Hd _] Hwf']; subst.
  cbn [fold_left]. rewrite (IH _ k Hwf').
  unfold RoundedDetector.add_scores.
  now rewrite (add_items_get_fl (scores e) acc k Hd).
Qed.

(** Every key of the accumulated dictionary holds the floating-point sum of
    its scores. *)
Lemma sum_scores_get_fl (recent : list Entry) (k : string) :
  Forall wf_entry recent ->
  dict_get_or (RoundedDetector.sum_scores rnd recent) k 0%Q
  = RoundedDetector.total_of rnd k recent.
Proof.
  intros Hwf. unfold RoundedDetector.sum_scores, RoundedDetector.total_of.
  now rewrite (fold_add_scores_get_fl recent [] k Hwf).
Qed.

Lemma add_items_keys_fl (items : dict Q) :
  forall (acc : dict Q) (x : string),
    In x (keys (fold_left (RoundedDetector.add_item rnd) items acc)) <->
    In x (keys acc) \/ In x (keys items).
Proof.
  induction items as [| [k1 v1] items IH]; intros acc x; simpl.
  - tauto.
  - rewrite IH. unfold RoundedDetector.add_item. simpl. rewrite keys_dict_set.
    intuition congruence.
Qed.

Lemma fold_add_scores_keys_fl (recent : list Entry) :
  forall (acc : dict Q) (x : string),
    In x (keys (fold_left (RoundedDetector.add_scores rnd) recent acc)) <->
    In x (keys acc) \/ exists e, In e recent /\ In x (keys (scores e)).
Proof.
  induction recent as [| e recent IH]; intros acc x; simpl.
  - split; [tauto | intros [H | [e [[] _]]]; exact H].
  - rewrite IH. unfold RoundedDetector.add_scores.
    rewrite add_items_keys_fl. split.
    + intros [[H | H] | [e' [H1 H2]]]; eauto.
    + intros [H | [e' [[-> | H1] H2]]]; eauto.
Qed.

Lemma sum_scores_wf_fl (recent : list Entry) :
  wf_dict (RoundedDetector.sum_scores rnd recent).
Proof.
  unfold RoundedDetector.sum_scores.
  assert (Hitems : forall items acc,
             wf_dict acc ->
             wf_dict (fold_left (RoundedDetector.add_item rnd) items acc)).
  { induction items as [| it items IH]; intros acc Hwf; simpl; [exact Hwf |].
    apply IH. unfold RoundedDetector.add_item. now apply wf_dict_set. }
  assert (H : forall acc,
             wf_dict acc ->
             wf_dict (fold_left (RoundedDetector.add_scores rnd) recent acc)).
  { induction recent as [| e recent IH]; intros acc Hwf; simpl; [exact Hwf |].
    apply IH. unfold RoundedDetector.add_scores. now apply Hitems. }
  apply H. constructor.
Qed.

Lemma sum_scores_nonneg_fl (recent : list Entry) :
  Forall wf_entry recent ->
  nonneg_dict (RoundedDetector.sum_scores rnd recent).
Proof.
  unfold RoundedDetector.sum_scores.
  assert (Hitems : forall items acc,
             nonneg_dict items -> nonneg_dict acc ->
             nonneg_dict (fold_left (RoundedDetector.add_item rnd) items acc)).
  { induction items as [| [k1 v1] items IH]; intros acc Hi Ha; simpl;
      [exact Ha |].
    inversion Hi as [| ? ? Hv Hi']; subst. apply IH; [exact Hi' |].
    unfold RoundedDetector.add_item. apply nonneg_set; [exact Ha |].
    unfold fadd. apply (rnd_nonneg rnd Hrnd).
    simpl in *. pose proof (nonneg_get acc k1 Ha). lra. }
  assert (H : forall acc,
             Forall wf_entry recent -> nonneg_dict acc ->
             nonneg_dict (fold_left (RoundedDetector.add_scores rnd) recent acc)).
  { induction recent as [| e recent IH]; intros acc Hwf Ha; simpl; [exact Ha |].
    inversion Hwf as [| ? ? [_ He] Hwf']; subst.
    apply IH; [exact Hwf' |]. unfold RoundedDetector.add_scores.
    now apply Hitems. }
  intros Hwf. apply H; [exact Hwf | constructor].
Qed.

(** A floating-point sum of non-negative numbers that is not positive has
    only zeros. *)
Lemma fold_fadd_zero (xs : list Q) :
  forall a : Q,
    Forall (fun x => 0 <= x)%Q xs -> (0 <= a)%Q ->
    (fold_left (fadd rnd) xs a <= 0)%Q ->
    (a == 0)%Q /\ Forall (fun x => x == 0)%Q xs.
Proof.
  induction xs as [| x xs IH]; intros a Hxs Ha Hsum; simpl in Hsum.
  - split; [lra | constructor].
  - inversion Hxs as [| ? ? Hx Hxs']; subst.
    assert (Hax : (0 <= a + x)%Q) by lra.
    destruct (IH (fadd rnd a x) Hxs') as [Hz Hrest];
      [unfold fadd; now apply (rnd_nonneg rnd Hrnd) | exact Hsum |].
    assert (Hle : (a + x <= 0)%Q).
    { destruct (Qlt_le_dec 0 (a + x)) as [Hpos | Hle]; [| exact Hle].
      pose proof (rnd_pos rnd Hrnd _ Hpos) as Hp. unfold fadd in Hz. lra. }
    split; [lra | constructor; [lra | exact Hrest]].
Qed.

Lemma normalize_get_fl (d : dict Q) (n : nat) (k : string) :
  (dict_get_or (RoundedDetector.normalize rnd d n) k 0
   == fdiv rnd (dict_get_or d k 0) (fl_of_int rnd (Z.of_nat n)))%Q.
Proof.
  unfold RoundedDetector.normalize. induction d as [| [k' v'] d IH]; simpl.
  - rewrite !dict_get_or_nil. unfold fdiv.
    rewrite (rnd_eq rnd Hrnd (0 / fl_of_int rnd (Z.of_nat n)) 0)
      by (unfold Qdiv; ring).
    symmetry. apply (rnd_zero rnd Hrnd).
  - rewrite !dict_get_or_cons. simpl.
    destruct (String.eqb k' k); [reflexivity | exact IH].
Qed.

Lemma average_over_keys_fl (recent : list Entry) :
  keys (avg_scores (RoundedDetector.average_over rnd recent))
  = keys (RoundedDetector.sum_scores rnd recent).
Proof.
  unfold RoundedDetector.average_over. simpl.
  destruct (Qltb 0 _); [| reflexivity].
  unfold RoundedDetector.normalize, keys. rewrite map_map. reflexivity.
Qed.

Lemma average_over_key_iff_fl (recent : list Entry) (k : string) :
  In k (keys (avg_scores (RoundedDetector.average_over rnd recent))) <->
  exists e, In e recent /\ In k (keys (scores e)).
Proof.
  rewrite average_over_keys_fl. unfold RoundedDetector.sum_scores.
  rewrite fold_add_scores_keys_fl. simpl. tauto.
Qed.

(** Every key of the result holds the floating-point sum of its scores
    over the window, divided in floating point by the length of the
    window. *)
Lemma average_over_get_fl (recent : list Entry) (k : string) :
  Forall wf_entry recent ->
  (dict_get_or (avg_scores (RoundedDetector.average_over rnd recent)) k 0
   == fdiv rnd (RoundedDetector.total_of rnd k recent)
        (fl_of_int rnd (Z.of_nat (List.length recent))))%Q.
Proof.
  intros Hwf. unfold RoundedDetector.average_over. simpl.
  destruct (Qltb 0 (RoundedDetector.py_sum rnd
                      (values (RoundedDetector.sum_scores rnd recent)))) eqn:E.
  - rewrite normalize_get_fl, (sum_scores_get_fl recent k Hwf). reflexivity.
  - apply Qltb_ge in E. unfold RoundedDetector.py_sum in E.
    destruct (fold_fadd_zero (values (RoundedDetector.sum_scores rnd recent)) 0%Q)
      as [_ Hz].
    + unfold values. apply Forall_map. now apply sum_scores_nonneg_fl.
    + apply Qle_refl.
    + exact E.
    + pose proof (zero_dict_get (RoundedDetector.sum_scores rnd recent) k Hz) as H0.
      rewrite H0. rewrite (sum_scores_get_fl recent k Hwf) in H0.
      unfold fdiv.
      rewrite (rnd_eq rnd Hrnd
                 (RoundedDetector.total_of rnd k recent
                  / fl_of_int rnd (Z.of_nat (List.length recent))) 0)
        by (rewrite H0; unfold Qdiv; ring).
      symmetry. apply (rnd_zero rnd Hrnd).
Qed.

Lemma average_over_wf_fl (recent : list Entry) :
  wf_dict (avg_scores (RoundedDetector.average_over rnd recent)).
Proof.
  unfold wf_dict. rewrite average_over_keys_fl. apply sum_scores_wf_fl.
Qed.

(** The label is a key whose value no other key's value exceeds. *)
Lemma average_over_dominant_fl (recent : list Entry) :
  avg_scores (RoundedDetector.average_over rnd recent) <> [] ->
  In (avg_emotion (RoundedDetector.average_over rnd recent))
     (keys (avg_scores (RoundedDetector.average_over rnd recent))) /\
  forall k,
    In k (keys (avg_scores (RoundedDetector.average_over rnd recent))) ->
    (dict_get_or (avg_scores (RoundedDetector.average_over rnd recent)) k 0
     <= dict_get_or (avg_scores (RoundedDetector.average_over rnd recent))
          (avg_emotion (RoundedDetector.average_over rnd recent)) 0)%Q.
Proof.
  pose proof (average_over_wf_fl recent) as Hwf.
  assert (Hdom : avg_emotion (RoundedDetector.average_over rnd recent)
                 = dominant_of (avg_scores (RoundedDetector.average_over rnd recent)))
    by reflexivity.
  rewrite Hdom. clear Hdom.
  destruct (avg_scores (RoundedDetector.average_over rnd recent))
    as [| first rest] eqn:Ed; [congruence | intros _].
  unfold dominant_of.
  destruct (py_max_by_spec snd rest first) as [Hin Hmax].
  set (m := py_max_by snd first rest) in *.
  assert (Hm : dict_get_or (first :: rest) (fst m) 0%Q = snd m).
  { unfold dict_get_or. rewrite (dict_get_in (first :: rest) (fst m) (snd m) Hwf);
      [reflexivity | now destruct m]. }
  split.
  - unfold keys. now apply in_map.
  - intros k Hk. unfold keys in Hk. apply in_map_iff in Hk.
    destruct Hk as [[k' v] [Hfst Hy]]. simpl in Hfst. subst k'.
    unfold dict_get_or at 1. rewrite (dict_get_in (first :: rest) k v Hwf Hy).
    rewrite Hm. apply (Hmax (k, v) Hy).
Qed.

Lemma get_average_emotion_some_fl (w : Z) (self : EmotionDetector) :
  emotion_history self <> [] ->
  RoundedDetector.get_average_emotion rnd w self =
  Some (RoundedDetector.average_over rnd
          (py_slice_from (- w) (emotion_history self))).
Proof.
  unfold RoundedDetector.get_average_emotion.
  destruct (emotion_history self); [congruence | reflexivity].
Qed.

(** *** The average (C4) *)

(** C4: [get_average_emotion] returns [None] exactly on an empty history.
    On a non-empty history of classifier observations and a positive
    window [w] it averages the last [min w (len history)] observations: the
    keys of the result are the keys of their score maps; each key holds the
    floating-point sum of its scores over those observations (an
    observation without the key adds nothing) divided, in floating point,
    by their number; and the label is a key whose average no other key
    exceeds.  On [{happy:80,sad:20}, {happy:60,sad:40}] with window 2 the
    result is happy 70, sad 30, labelled "happy". *)
Theorem get_average_emotion_rounded_spec :
  (forall (w : Z) (self : EmotionDetector),
     RoundedDetector.get_average_emotion rnd w self = None <->
     emotion_history self = []) /\
  (forall (w : Z) (self : EmotionDetector),
     0 < w ->
     emotion_history self <> [] ->
     Forall wf_entry (emotion_history self) ->
     let n := Nat.min (Z.to_nat w) (List.length (emotion_history self)) in
     let recent := last_n n (emotion_history self) in
     exists r,
       RoundedDetector.get_average_emotion rnd w self = Some r /\
       (forall k,
          In k (keys (avg_scores r)) <->
          exists e, In e recent /\ In k (keys (scores e))) /\
       (forall k,
          (dict_get_or (avg_scores r) k 0
           == fdiv rnd (RoundedDetector.total_of rnd k recent)
                (fl_of_int rnd (Z.of_nat n)))%Q) /\
       (avg_scores r <> [] ->
        In (avg_emotion r) (keys (avg_scores r)) /\
        forall k,
          In k (keys (avg_scores r)) ->
          (dict_get_or (avg_scores r) k 0
           <= dict_get_or (avg_scores r) (avg_emotion r) 0)%Q)) /\
  (forall (l1 l2 : string) (c1 c2 : Color) (last : option string),
     exists r,
       RoundedDetector.get_average_emotion rnd 2
         {| last_emotion := last;
            emotion_history :=
              [ mkEntry l1 [("happy"%string, 80%Q); ("sad"%string, 20%Q)] c1;
                mkEntry l2 [("happy"%string, 60%Q); ("sad"%string, 40%Q)] c2 ] |}
       = Some r /\
       keys (avg_scores r) = ["happy"%string; "sad"%string] /\
       (dict_get_or (avg_scores r) "happy" 0 == 70)%Q /\
       (dict_get_or (avg_scores r) "sad" 0 == 30)%Q /\
       avg_emotion r = "happy"%string).
Proof.
  split; [| split].
  - intros w self. unfold RoundedDetector.get_average_emotion.
    destruct (emotion_history self); split; congruence.
  - intros w self Hw Hne Hwf n recent.
    exists (RoundedDetector.average_over rnd recent). subst recent n.
    rewrite (get_average_emotion_some_fl w self Hne), (py_slice_last w _ Hw).
    set (n := Nat.min (Z.to_nat w) (List.length (emotion_history self))).
    split; [reflexivity |].
    split; [intros k; apply average_over_key_iff_fl |].
    split; [| apply average_over_dominant_fl].
    intros k.
    rewrite (average_over_get_fl _ k (Forall_last_n wf_entry n _ Hwf)).
    rewrite length_last_n.
    replace (Nat.min n (List.length (emotion_history self))) with n
      by (unfold n; lia).
    reflexivity.
  - intros l1 l2 c1 c2 last.
    set (e1 := mkEntry l1 [("happy"%string, 80%Q); ("sad"%string, 20%Q)] c1).
    set (e2 := mkEntry l2 [("happy"%string, 60%Q); ("sad"%string, 40%Q)] c2).
    exists (RoundedDetector.average_over rnd [e1; e2]).
    split; [reflexivity |].
    assert (Hwf : Forall wf_entry [e1; e2]).
    { repeat constructor; simpl; try (intros H; intuition discriminate);
        try (vm_compute; discriminate). }
    assert (Hkeys : keys (avg_scores (RoundedDetector.average_over rnd [e1; e2]))
                    = ["happy"%string; "sad"%string])
      by (rewrite average_over_keys_fl; reflexivity).
    assert (H2 : (fl_of_int rnd (Z.of_nat (List.length [e1; e2])) == 2)%Q)
      by (apply (rnd_byte rnd Hrnd); simpl; lia).
    assert (Hh : (dict_get_or
                    (avg_scores (RoundedDetector.average_over rnd [e1; e2]))
                    "happy" 0 == 70)%Q).
    { rewrite (average_over_get_fl [e1; e2] "happy" Hwf).
      unfold RoundedDetector.total_of, fdiv, fadd. simpl.
      assert (E1 : (rnd (0 + 80) == inject_Z 80)%Q)
        by (apply (rnd_byte_eq rnd Hrnd); [lia | reflexivity]).
      assert (E2 : (rnd (rnd (0 + 80) + 60) == inject_Z 140)%Q)
        by (apply (rnd_byte_eq rnd Hrnd); [lia | rewrite E1; reflexivity]).
      apply (rnd_byte_eq rnd Hrnd _ 70); [lia |].
      simpl in H2. rewrite E2, H2. reflexivity. }
    assert (Hs : (dict_get_or
                    (avg_scores (RoundedDetector.average_over rnd [e1; e2]))
                    "sad" 0 == 30)%Q).
    { rewrite (average_over_get_fl [e1; e2] "sad" Hwf).
      unfold RoundedDetector.total_of, fdiv, fadd. simpl.
      assert (E1 : (rnd (0 + 20) == inject_Z 20)%Q)
        by (apply (rnd_byte_eq rnd Hrnd); [lia | reflexivity]).
      assert (E2 : (rnd (rnd (0 + 20) + 40) == inject_Z 60)%Q)
        by (apply (rnd_byte_eq rnd Hrnd); [lia | rewrite E1; reflexivity]).
      apply (rnd_byte_eq rnd Hrnd _ 30); [lia |].
      simpl in H2. rewrite E2, H2. reflexivity. }
    split; [exact Hkeys |]. split; [exact Hh |]. split; [exact Hs |].
    destruct (average_over_dominant_fl [e1; e2]) as [Hin Hmax].
    { intros Hnil. rewrite Hnil in Hkeys. discriminate. }
    rewrite Hkeys in Hin, Hmax.
    destruct Hin as [Hl | [Hl | []]]; [now symmetry |].
    exfalso. specialize (Hmax "happy"%string (or_introl eq_refl)).
    rewrite <- Hl, Hh, Hs in Hmax. revert Hmax. vm_compute. tauto.
Qed.

(** *** A window of zero (C10) *)


End Averaging.

Lemma get_average_emotion_rounded_spec_witness :
  let self :=
    record_all
      [ mkEntry "sad" [("sad"%string, 90%Q); ("happy"%string, 10%Q)] (100, 150, 255);
        mkEntry "happy" [("happy"%string, 80%Q); ("sad"%string, 20%Q)] (255, 200, 0);
        mkEntry "happy" [("happy"%string, 60%Q); ("fear"%string, 40%Q)] (255, 200, 0) ]
      init in
  exists r,
    RoundedDetector.get_average_emotion round53 2 self = Some r /\
    (dict_get_or (avg_scores r) "happy" 0 == 70)%Q /\
    (dict_get_or (avg_scores r) "sad" 0 == 10)%Q /\
    (dict_get_or (avg_scores r) "fear" 0 == 20)%Q.
Proof.
  intros self.
  destruct (get_average_emotion_rounded_spec round53 round53_rounding)
    as [_ [Havg _]].
  destruct (Havg 2 self) as [r [Hr [_ [Hget _]]]].
  - lia.
  - discriminate.
  - repeat constructor; simpl; try (intros H; intuition discriminate);
      try (vm_compute; discriminate).
  - exists r. split; [exact Hr |].
    split; [| split]; rewrite Hget; vm_compute; reflexivity.
Defined.



End RoundedDetectorFacts.
